(** * flopy: the ZONE package reader, the river package definition and the
      zone-budget tests

    A shallow embedding of

    - [flopy/modflow/mfzon.py]  (class [ModflowZon]: constructor,
      [write_file], [load]),
    - [flopy/mf6/modflow/mfgwfriv.py]  (the [dfn] table of [ModflowGwfriv]),
    - [autotest/t035_test.py]  (the five zone-budget test functions),

    together with the properties the specification states about them.

    Conventions.  The text of files and what is made of it (lines, words,
    zone names, messages) is a [text]: the list of the code points of a
    Python 3 [str].  The strings written in the source code itself
    (attribute names, paths, the definition table) are Rocq [string]s.  The
    builtins whose results come from the Unicode tables of the interpreter,
    [str.isspace], [str.lower] and [int], are taken as given.  Python
    integers are [Z].  A Python object is the finite map of its instance
    attributes.  Code runs in a state-and-exception monad over a [World]
    holding the files on disk, the open file objects, what was written to
    [sys.stdout] and the log of the calls made on other modules. *)

From Stdlib Require Import ZArith NArith Ascii String List Lia Bool.
From stdpp Require Import base option list gmap strings fin_maps.

Local Open Scope Z_scope.

(* ===================================================================== *)
(** ** Python strings *)
(* ===================================================================== *)

Module PyStr.

(** [str.isspace] on one character of a string of the source code: TAB,
    LF, VT, FF, CR, the four separators FS GS RS US, the space, NEL and the
    no-break space. *)
Definition is_space (c : ascii) : bool :=
  let n := N_of_ascii c in
  ((9 <=? n) && (n <=? 13) || (28 <=? n) && (n <=? 32)
   || (n =? 133) || (n =? 160))%N.

(** [s.split()] with no separator: the maximal runs of characters that
    are not white space.  [cur] is the run being read. *)
Fixpoint split_from (cur : string) (s : string) : list string :=
  match s with
  | EmptyString => if String.eqb cur "" then [] else [cur]
  | String c r =>
      if is_space c
      then (if String.eqb cur "" then split_from "" r
            else cur :: split_from "" r)
      else split_from (cur +:+ String c "") r
  end.

Definition split (s : string) : list string := split_from "" s.

End PyStr.

(* ===================================================================== *)
(** ** Python text *)
(* ===================================================================== *)

(** A [str]: its code points. *)
Abbreviation text := (list N).

(** The text of a string of the source code, character by character. *)
Fixpoint u (s : string) : text :=
  match s with
  | EmptyString => []
  | String c r => N_of_ascii c :: u r
  end.

(** [a == b] on two [str]. *)
Fixpoint text_eqb (a b : text) : bool :=
  match a, b with
  | [], [] => true
  | x :: a', y :: b' => N.eqb x y && text_eqb a' b'
  | _, _ => false
  end.

Module PyText.

Definition LF : N := 10.
Definition CR : N := 13.

(** The builtins that depend on the Unicode data of the interpreter, taken
    as given: [c.isspace()] for one character, [s.lower()] and [int(s)] in
    base 10, where [None] stands for [ValueError]. *)
Class Builtins := {
  isspace : N -> bool;
  lower : text -> text;
  int : text -> option Z
}.

(** [len(s)] *)
Definition len (s : text) : Z := Z.of_nat (length s).

(** ['{:<10s}'.format(s)]: [s] padded with spaces on the right to [n]
    characters, never cut. *)
Definition ljust (n : nat) (s : text) : text :=
  s ++ replicate (n - length s) 32%N.

(** [f.readline()] on the text not yet read: the line up to and including
    its newline, and what remains.  At the end of the file the line is
    empty. *)
Fixpoint readline (s : text) : text * text :=
  match s with
  | [] => ([], [])
  | c :: r =>
      if N.eqb c LF then ([c], r)
      else let '(l, rest) := readline r in (c :: l, rest)
  end.

(** What a file opened in text mode delivers: every line end of the file,
    be it LF, CR LF or a CR alone, is read as LF. *)
Fixpoint universal_newlines (s : text) : text :=
  match s with
  | [] => []
  | c :: r =>
      if N.eqb c CR
      then LF :: match r with
                 | c' :: r' => if N.eqb c' LF then universal_newlines r'
                               else universal_newlines r
                 | [] => []
                 end
      else c :: universal_newlines r
  end.

Section Words.
Context {py : Builtins}.

(** [s.lstrip()] *)
Fixpoint lstrip (s : text) : text :=
  match s with
  | [] => []
  | c :: r => if isspace c then lstrip r else s
  end.

(** [s.rstrip()]: a character is kept when it is not white space or when
    something is kept after it. *)
Fixpoint rstrip (s : text) : text :=
  match s with
  | [] => []
  | c :: r =>
      match rstrip r with
      | [] => if isspace c then [] else [c]
      | r' => c :: r'
      end
  end.

(** [s.strip()] *)
Definition strip (s : text) : text := rstrip (lstrip s).

(** [s.split()] with no separator: the maximal runs of characters that
    are not white space.  [cur] is the run being read. *)
Fixpoint split_from (cur : text) (s : text) : list text :=
  match s with
  | [] => match cur with [] => [] | _ => [cur] end
  | c :: r =>
      if isspace c
      then match cur with
           | [] => split_from [] r
           | _ => cur :: split_from [] r
           end
      else split_from (cur ++ [c]) r
  end.

Definition split (s : text) : list text := split_from [] s.

End Words.
End PyText.

(* ===================================================================== *)
(** ** Objects, the world and the monad of effects *)
(* ===================================================================== *)

(** The model object belongs to a class outside these sources.  The package
    code reads its attribute [verbose] and calls three of its methods; the
    object is represented by what those reads return, and each method call
    is written to the world's call log. *)
Record Model := mkModel {
  verbose : bool;
  nrow_ncol_nlay_nper : Z * Z * Z * Z
}.

(** The array object that [Util2d.load] returns.  The package code reads
    its attribute [locat] only. *)
Record Util2d := mkUtil2d {
  array : list (list Z);
  locat : option Z
}.

(** [collections.OrderedDict] with [str] keys: the items in insertion
    order.  Assigning to a key already present replaces its value in place;
    a new key goes to the end. *)
Definition OrderedDict := list (text * Util2d).

Fixpoint od_set (k : text) (v : Util2d) (d : OrderedDict) : OrderedDict :=
  match d with
  | [] => [(k, v)]
  | (k', v') :: d' =>
      if text_eqb k' k then (k', v) :: d' else (k', v') :: od_set k v d'
  end.

Definition od_keys (d : OrderedDict) : list text := map fst d.
Definition od_len (d : OrderedDict) : Z := Z.of_nat (length d).

(** Attribute values. *)
Inductive value :=
| VInt (z : Z)
| VStr (s : string)
| VDict (d : OrderedDict)
| VModel (m : Model).

(** An object: its instance attributes by name. *)
Abbreviation Obj := (gmap string value).

Inductive exn :=
| IndexError
| ValueError
| IOError
| AttributeError (attr : string)
| Exception (msg : string)
| Util2dError (msg : string).

(** How a call ends.  [OutOfFuel] is not a Python outcome: it marks a
    [while] loop that the embedding cut short, and [load_never_out_of_fuel]
    shows that it does not occur. *)
Inductive Outcome (A : Type) :=
| Ok (a : A)
| Raise (e : exn)
| OutOfFuel.
Arguments Ok {A} a.
Arguments Raise {A} e.
Arguments OutOfFuel {A}.

(** The [dtype] argument of [Util2d.load]; the package passes [np.int]. *)
Inductive dtype := np_int | np_float32.

(** The calls the package code makes on objects of other modules: the
    three methods of the model object, and [Util2d.load] with the shape,
    type and name it is given. *)
Inductive Call :=
| get_nrow_ncol_nlay_nper (m : Model)
| add_pop_key_list (m : Model) (key : Z)
| add_package (m : Model) (p : Obj)
| Util2d_load_call (m : Model) (shape : option Z * option Z) (dt : dtype)
                   (name : text).

(** The files on disk are known by the characters they hold.  An open file
    object is known by the text it has not yet delivered, in which a line
    ends with LF: this is what a file opened in text mode delivers, and an
    [io.StringIO]. *)
Record World := mkWorld {
  fs : gmap string text;        (* the files on disk: path to characters *)
  handles : list text;          (* open file objects: the text not yet read *)
  stdout : list text;           (* the writes to sys.stdout, oldest first *)
  calls : list Call             (* the calls on other modules, oldest first *)
}.

Definition M (A : Type) : Type := World -> Outcome A * World.

Definition ret {A} (a : A) : M A := fun w => (Ok a, w).
Definition raise {A} (e : exn) : M A := fun w => (Raise e, w).
Definition bind {A B} (m : M A) (k : A -> M B) : M B :=
  fun w =>
    match m w with
    | (Ok a, w') => k a w'
    | (Raise e, w') => (Raise e, w')
    | (OutOfFuel, w') => (OutOfFuel, w')
    end.

(** The monad in stdpp's classes, for its notations [x ← m; k] and
    [m;; k]. *)
#[global] Instance M_ret : MRet M := @ret.
#[global] Instance M_bind : MBind M := fun A B k m => bind m k.

(** [if c: m] *)
Definition when (c : bool) (m : M unit) : M unit := if c then m else ret tt.

(** [sys.stdout.write(s)] *)
Definition stdout_write (s : text) : M unit :=
  fun w => (Ok tt, mkWorld (fs w) (handles w) (stdout w ++ [s]) (calls w)).

(** A call on another module, logged. *)
Definition call (c : Call) : M unit :=
  fun w => (Ok tt, mkWorld (fs w) (handles w) (stdout w) (calls w ++ [c])).

(** [model.get_nrow_ncol_nlay_nper()] *)
Definition model_dims (m : Model) : M (Z * Z * Z * Z) :=
  call (get_nrow_ncol_nlay_nper m);; ret (nrow_ncol_nlay_nper m).

(** [open(filename, 'r')]: a new file object on the text of the file, read
    in text mode, so with every line end turned into LF; [IOError] when
    there is no such file. *)
Definition open (filename : string) : M nat :=
  fun w =>
    match fs w !! filename with
    | Some txt =>
        (Ok (length (handles w)),
         mkWorld (fs w) (handles w ++ [PyText.universal_newlines txt])
                 (stdout w) (calls w))
    | None => (Raise IOError, w)
    end.

(** [f.readline()] on file object [h].  A number that names no open file
    object behaves as a closed file. *)
Definition readline (h : nat) : M text :=
  fun w =>
    match handles w !! h with
    | Some txt =>
        let '(line, rest) := PyText.readline txt in
        (Ok line, mkWorld (fs w) (<[h := rest]> (handles w)) (stdout w) (calls w))
    | None => (Raise ValueError, w)
    end.

(** [s[0]] *)
Definition str_first (s : text) : M N :=
  match s with
  | [] => raise IndexError
  | c :: _ => ret c
  end.

(** [t[0]] on a list *)
Definition list_first {A} (t : list A) : M A :=
  match t with
  | [] => raise IndexError
  | x :: _ => ret x
  end.

(** [int(s)] *)
Definition py_int {py : PyText.Builtins} (s : text) : M Z :=
  match PyText.int s with
  | Some z => ret z
  | None => raise ValueError
  end.

(** [getattr(o, name)] *)
Definition getattr (o : Obj) (name : string) : M value :=
  match o !! name with
  | Some v => ret v
  | None => raise (AttributeError name)
  end.

(* ===================================================================== *)
(** ** flopy/modflow/mfzon.py *)
(* ===================================================================== *)

(** The argument [f] of [load]: a file name, or an object with a [read]
    attribute, that is an open file object. *)
Inductive FileArg :=
| Filename (path : string)
| FileObj (h : nat).

(** [ext_unit_dict]: unit number to external file name. *)
Abbreviation ExtUnitDict := (gmap Z string).

Definition dquote : text := [34%N].
Definition newline : text := [PyText.LF].
Definition hash : N := 35.

Module ModflowZon.
Section Package.

(** [Package.__init__] and [Util2d.load] live in [flopy.mbase] and
    [flopy.utils], outside these sources, and are taken as given, as are
    the builtins [py].

    [Package_init model extension name unitnumber] is the object as the
    ancestor's constructor leaves it.  [Util2d_load] reads one array from
    the text not yet read of the file object; it returns the array object or
    the exception it raised, and the text still to be read.  The arrays are
    those written in the zone file itself: an array kept in another file,
    which [Util2d.load] finds through [ext_unit_dict], is read from file
    objects that are not followed here. *)
Context {py : PyText.Builtins}.
Variable Package_init : Model -> string -> string -> Z -> Obj.
Variable Util2d_load :
  text -> Model -> option Z * option Z -> dtype -> text ->
  option ExtUnitDict -> (Util2d + exn) * text.

(** [Util2d_load] on the text of file object [h], which it advances. *)
Definition Util2d_read (h : nat) (model : Model)
    (shape : option Z * option Z) (dt : dtype) (name : text)
    (ext_unit_dict : option ExtUnitDict) : M Util2d :=
  fun w =>
    match handles w !! h with
    | Some txt =>
        let '(r, rest) := Util2d_load txt model shape dt name ext_unit_dict in
        let w' := mkWorld (fs w) (<[h := rest]> (handles w)) (stdout w) (calls w) in
        match r with
        | inl t => (Ok t, w')
        | inr e => (Raise e, w')
        end
    | None => (Raise ValueError, w)
    end.

(** [Util2d.load(f, model, shape, dtype, name, ext_unit_dict)] on an open
    file object: the call is logged, then the array is read. *)
Definition Util2d_load_on (h : nat) (model : Model)
    (shape : option Z * option Z) (dt : dtype) (name : text)
    (ext_unit_dict : option ExtUnitDict) : M Util2d :=
  call (Util2d_load_call model shape dt name);;
  Util2d_read h model shape dt name ext_unit_dict.

(** [ModflowZon.__init__(self, model, zone_dict, extension, unitnumber)];
    the result is [self]. *)
Definition __init__ (model : Model) (zone_dict : option OrderedDict)
    (extension : string) (unitnumber : Z) : M Obj :=
  let self := Package_init model extension "ZONE" unitnumber in
  let self := <["heading" := VStr "# ZONE for MODFLOW, generated by Flopy."]> self in
  let self := <["url" := VStr "zon.htm"]> self in
  let self := <["nzn" := VInt 0]> self in
  let self :=
    match zone_dict with
    | Some d => <["zone_dict" := VDict d]> (<["nzn" := VInt (od_len d)]> self)
    | None => self
    end in
  parent ← getattr self "parent";
  match parent with
  | VModel m => call (add_package m self);; ret self
  | _ => raise (AttributeError "add_package")
  end.

(** The constructor with its default [extension='zon'] and
    [unitnumber=1001]. *)
Definition new (model : Model) (zone_dict : option OrderedDict) : M Obj :=
  __init__ model zone_dict "zon" 1001.

(** [ModflowZon.write_file(self)]: the body is [pass]. *)
Definition write_file (self : Obj) : M unit := ret tt.

(** The name under which a zone is stored:
    [t[0][0:10].lower()] if [len(t[0]) > 10], else [t[0].lower()]. *)
Definition zonnam_of (t0 : text) : text :=
  if (10 <? PyText.len t0)%Z then PyText.lower (take 10 t0)
  else PyText.lower t0.

(** Dataset 0: [while True: line = f.readline(); if line[0] != '#': break].
    The result is the first line that does not start with [#]. *)
Fixpoint header_loop (fuel : nat) (h : nat) : M text :=
  match fuel with
  | O => fun w => (OutOfFuel, w)
  | S fuel' =>
      line ← readline h;
      c ← str_first line;
      if negb (N.eqb c hash) then ret line else header_loop fuel' h
  end.

(** Every turn of the loop but the last reads at least one character, so
    one turn more than there are characters left is enough. *)
Definition header (h : nat) : M text :=
  fun w => header_loop (S (length (default [] (handles w !! h)))) h w.

(** The body of [for n in range(nzn)], run [n] times on [zone_dict]. *)
Fixpoint read_zones (n : nat) (h : nat) (model : Model)
    (shape : option Z * option Z) (ext_unit_dict : option ExtUnitDict)
    (zone_dict : OrderedDict) : M OrderedDict :=
  match n with
  | O => ret zone_dict
  | S n' =>
      line ← readline h;
      t0 ← list_first (PyText.split (PyText.strip line));
      let zonnam := zonnam_of t0 in
      when (verbose model)
        (stdout_write (u "   reading data for " ++ dquote ++
                       PyText.ljust 10 zonnam ++ dquote ++ u " zone" ++ newline));;
      t ← Util2d_load_on h model shape np_int zonnam ext_unit_dict;
      match locat t with
      | Some key => call (add_pop_key_list model key)
      | None => ret tt
      end;;
      read_zones n' h model shape ext_unit_dict (od_set zonnam t zone_dict)
  end.

(** [ModflowZon.load(f, model, nrow, ncol, ext_unit_dict)] *)
Definition load (f : FileArg) (model : Model) (nrow ncol : option Z)
    (ext_unit_dict : option ExtUnitDict) : M Obj :=
  when (verbose model)
    (stdout_write (u "loading zone package file..." ++ newline));;
  h ← match f with
      | FileObj h => ret h
      | Filename filename => open filename
      end;
  line ← header h;
  t0 ← list_first (PyText.split (PyText.strip line));
  nzn ← py_int t0;
  shape ← match nrow, ncol with
           | None, None =>
               d ← model_dims model;
               let '(nrow, ncol, nlay, nper) := d in
               ret (Some nrow, Some ncol)
           | _, _ => ret (nrow, ncol)
           end;
  zone_dict ← read_zones (Z.to_nat nzn) h model shape ext_unit_dict [];
  new model (Some zone_dict).

End Package.
End ModflowZon.

(* ===================================================================== *)
(** ** Stand-ins for what is taken as given, to run examples *)
(* ===================================================================== *)

Module PyDemo.

(** [str.isspace] of one character: the characters of the Unicode data with
    the property White_Space or a bidirectional class WS, B or S. *)
Definition isspace (c : N) : bool :=
  ((9 <=? c) && (c <=? 13) || (28 <=? c) && (c <=? 32)
   || (c =? 133) || (c =? 160) || (c =? 5760)
   || (8192 <=? c) && (c <=? 8202) || (c =? 8232) || (c =? 8233)
   || (c =? 8239) || (c =? 8287) || (c =? 12288))%N.

(** [str.lower] on the letters of Basic Latin and Latin-1, and on U+0130,
    the capital I with a dot above, whose lower case is the two characters
    U+0069 U+0307.  The characters beyond, which the examples do not use,
    are left as they are. *)
Definition lower_char (c : N) : text :=
  if ((65 <=? c) && (c <=? 90))%N then [(c + 32)%N]
  else if ((192 <=? c) && (c <=? 222) && negb (c =? 215))%N then [(c + 32)%N]
  else if (c =? 304)%N then [105%N; 775%N]
  else [c].

Definition lower (s : text) : text := flat_map lower_char s.

(** The white space that [int] skips at both ends of an ASCII string. *)
Definition is_blank (c : N) : bool := ((9 <=? c) && (c <=? 13) || (c =? 32))%N.

Definition digit_val (c : N) : option Z :=
  if ((48 <=? c) && (c <=? 57))%N then Some (Z.of_N c - 48) else None.

(** The digits of a decimal literal, read from the left: single
    underscores may stand between digits.  [acc] is the value so far,
    [after_digit] tells that the character before was a digit. *)
Fixpoint int_digits (s : text) (acc : Z) (after_digit : bool) : option Z :=
  match s with
  | [] => if after_digit then Some acc else None
  | c :: r =>
      if (c =? 95)%N
      then (if after_digit then int_digits r acc false else None)
      else match digit_val c with
           | Some d => int_digits r (10 * acc + d) true
           | None => None
           end
  end.

Definition count_digits (s : text) : nat :=
  length (List.filter (fun c => bool_decide (digit_val c <> None)) s).

Fixpoint drop_blanks (s : text) : text :=
  match s with
  | c :: r => if is_blank c then drop_blanks r else s
  | [] => []
  end.

(** [int(s)] in base 10 on ASCII text: blanks at both ends, an optional
    sign, digits with single underscores between them, and no more than
    4300 digits.  The decimal digits of other scripts, which the examples
    do not use, are not read. *)
Definition int (s : text) : option Z :=
  let s := rev (drop_blanks (rev (drop_blanks s))) in
  let '(sign, body) :=
    match s with
    | 45%N :: r => (-1, r)
    | 43%N :: r => (1, r)
    | _ => (1, s)
    end in
  if (4300 <? count_digits body)%nat then None
  else z ← int_digits body 0 false; Some (sign * z).

End PyDemo.

(** The builtins of the examples. *)
Definition py_demo : PyText.Builtins :=
  {| PyText.isspace := PyDemo.isspace;
     PyText.lower := PyDemo.lower;
     PyText.int := PyDemo.int |}.

(** An ancestor's constructor that sets [parent], [extension], [name] and
    [unit_number], as the comment at its call in [ModflowZon.__init__]
    says. *)
Definition Package_init_demo (model : Model) (extension name : string)
    (unitnumber : Z) : Obj :=
  <["parent" := VModel model]>
    (<["extension" := VStr extension]>
      (<["name" := VStr name]>
        (<["unit_number" := VInt unitnumber]> ∅))).

Fixpoint ints_of (ts : list text) : option (list Z) :=
  match ts with
  | [] => Some []
  | t :: ts' =>
      match PyDemo.int t, ints_of ts' with
      | Some z, Some zs => Some (z :: zs)
      | _, _ => None
      end
  end.

(** An array reader for arrays of one row, written on one line of
    integers. *)
Definition Util2d_load_demo (txt : text) (model : Model)
    (shape : option Z * option Z) (dt : dtype) (name : text)
    (ext_unit_dict : option ExtUnitDict) : (Util2d + exn) * text :=
  let '(line, rest) := PyText.readline txt in
  match PyText.split (py := py_demo) line with
  | [] => (inr (Util2dError "no array"), rest)
  | ts => match ints_of ts with
          | Some row => (inl (mkUtil2d [row] None), rest)
          | None => (inr (Util2dError "not an integer"), rest)
          end
  end.

Definition load_demo :=
  ModflowZon.load (py := py_demo) Package_init_demo Util2d_load_demo.
Definition new_demo := ModflowZon.new Package_init_demo.

Definition quiet_model : Model := mkModel false (2, 3, 1, 1).

Definition world0 : World := mkWorld ∅ [] [] [].

(** The text of the lines given, each closed by a newline. *)
Definition lines (ls : list string) : text :=
  flat_map (fun l => u l ++ newline) ls.

(** A zone file with a comment, two zones and a name of twelve letters. *)
Definition zone_text : text :=
  lines ["# zones"; "2"; "ZoneAlphaBeta"; "1 1 2"; "south"; "3 3 3"].

Definition zone_world : World :=
  mkWorld (<["test.zon" := zone_text]> ∅) [] [] [].

(** The same file as written on other systems: its lines end with CR LF,
    or with CR alone. *)
Definition crlf_text : text :=
  flat_map (fun l => u l ++ [PyText.CR; PyText.LF])
           ["# zones"; "2"; "ZoneAlphaBeta"; "1 1 2"; "south"; "3 3 3"].
Definition cr_text : text :=
  flat_map (fun l => u l ++ [PyText.CR])
           ["# zones"; "2"; "ZoneAlphaBeta"; "1 1 2"; "south"; "3 3 3"].

(* ===================================================================== *)
(** ** flopy/mf6/modflow/mfgwfriv.py: the definition table *)
(* ===================================================================== *)

Module ModflowGwfriv.

Definition package_abbr : string := "gwfriv".
Definition package_type : string := "riv".

(** [ModflowGwfriv.dfn]: one entry per variable, each a list of
    [key value] strings. *)
Definition dfn : list (list string) :=
  [
   ["block options"; "name auxiliary"; "type string"; "shape (naux)";
    "reader urword"; "optional true"];
   ["block options"; "name auxmultname"; "type string"; "shape";
    "reader urword"; "optional true"];
   ["block options"; "name boundnames"; "type keyword"; "shape";
    "reader urword"; "optional true"];
   ["block options"; "name print_input"; "type keyword"; "reader urword";
    "optional true"];
   ["block options"; "name print_flows"; "type keyword"; "reader urword";
    "optional true"];
   ["block options"; "name save_flows"; "type keyword"; "reader urword";
    "optional true"];
   ["block options"; "name ts_filerecord";
    "type record ts6 filein ts6_filename"; "shape"; "reader urword";
    "tagged true"; "optional true"];
   ["block options"; "name ts6"; "type keyword"; "shape"; "in_record true";
    "reader urword"; "tagged true"; "optional false"];
   ["block options"; "name filein"; "type keyword"; "shape";
    "in_record true"; "reader urword"; "tagged true"; "optional false"];
   ["block options"; "name ts6_filename"; "type string";
    "preserve_case true"; "in_record true"; "reader urword";
    "optional false"; "tagged false"];
   ["block options"; "name obs_filerecord";
    "type record obs6 filein obs6_filename"; "shape"; "reader urword";
    "tagged true"; "optional true"];
   ["block options"; "name obs6"; "type keyword"; "shape";
    "in_record true"; "reader urword"; "tagged true"; "optional false"];
   ["block options"; "name obs6_filename"; "type string";
    "preserve_case true"; "in_record true"; "tagged false";
    "reader urword"; "optional false"];
   ["block options"; "name mover"; "type keyword"; "tagged true";
    "reader urword"; "optional true"];
   ["block dimensions"; "name maxbound"; "type integer"; "reader urword";
    "optional false"];
   ["block period"; "name iper"; "type integer"; "block_variable True";
    "in_record true"; "tagged false"; "shape"; "valid"; "reader urword";
    "optional false"];
   ["block period"; "name periodrecarray";
    "type recarray cellid stage cond rbot aux boundname";
    "shape (maxbound)"; "reader urword"];
   ["block period"; "name cellid"; "type integer"; "shape (ncelldim)";
    "tagged false"; "in_record true"; "reader urword"];
   ["block period"; "name stage"; "type double precision"; "shape";
    "tagged false"; "in_record true"; "reader urword"; "time_series true"];
   ["block period"; "name cond"; "type double precision"; "shape";
    "tagged false"; "in_record true"; "reader urword"; "time_series true"];
   ["block period"; "name rbot"; "type double precision"; "shape";
    "tagged false"; "in_record true"; "reader urword"; "time_series true"];
   ["block period"; "name aux"; "type double precision"; "in_record true";
    "tagged false"; "shape (naux)"; "reader urword"; "optional true";
    "time_series true"];
   ["block period"; "name boundname"; "type string"; "shape";
    "tagged false"; "in_record true"; "reader urword"; "optional true"]
  ].

(** The values an entry gives to [key]: for every string of the entry whose
    first word is [key], the words after it. *)
Definition attr (key : string) (entry : list string) : list (list string) :=
  flat_map (fun item =>
              match PyStr.split item with
              | k :: vs => if String.eqb k key then [vs] else []
              | [] => []
              end) entry.

(** The entries that declare the variable [name]. *)
Definition entries_named (name : string) : list (list string) :=
  filter (fun e => attr "name" e = [[name]]) dfn.

(** The entries of block [b]. *)
Definition entries_of_block (b : string) : list (list string) :=
  filter (fun e => attr "block" e = [[b]]) dfn.

Definition blocks : list string := ["options"; "dimensions"; "period"].

End ModflowGwfriv.

(* ===================================================================== *)
(** ** autotest/t035_test.py *)
(* ===================================================================== *)

Module ZonbudTest.

(** A zone is named by its number or by its alias. *)
Inductive zone := ZNum (z : Z) | ZAlias (s : string).

(** The queries on a budget object whose result the tests look at. *)
Inductive Query :=
| get_records (recordlist : option (list (string * string)))
              (zones : option (list zone))
| get_mass_balance
| get_total_outflow (zones : list zone)
| get_total_inflow (zones : list zone)
| get_percent_error.

Inductive BudgetTime := kstpkper_last | totim_last.

(** What a test does to the outside, in the order it does it. *)
Inductive Action :=
| AZoneBudget (path : string)
| AGetKstpkper
| AGetTimes
| AGetBudget (time : BudgetTime) (aliases : list (Z * string))
| AToCsv (path : string) (write_format : string)
| AQuery (q : Query)
| APrintDtype (q : Query)
| APrintRecs (q : Query).

(** A test runs with the log of its actions as state. *)
Definition T (A : Type) : Type := list Action -> Outcome A * list Action.

#[global] Instance T_ret : MRet T := fun A a log => (Ok a, log).
#[global] Instance T_bind : MBind T := fun A B k m log =>
  match m log with
  | (Ok a, log') => k a log'
  | (Raise e, log') => (Raise e, log')
  | (OutOfFuel, log') => (OutOfFuel, log')
  end.

Definition act (a : Action) : T unit :=
  fun log => (Ok tt, (log ++ [a])%list).
Definition throw {A} (e : exn) : T A := fun log => (Raise e, log).

Definition pth : string := "../examples/data/zonbud_examples".
Definition cbc_f : string := "freyberg.gitcbc".
(** [os.path.join(a, b)] for a relative [b] and an [a] without a final
    separator. *)
Definition path_join (a b : string) : string := a +:+ "/" +:+ b.

Section Budget.

(** [ZoneBudget] is in [flopy.utils], outside these sources.  A record
    array is known by its number of rows, [recs.shape[0]], and the budget
    object [zbud] by what its queries return.  Building the budget object
    is taken to succeed. *)
Variable recarray : Type.
Variable shape0 : recarray -> Z.
Variable zbud : Query -> recarray.

Definition query (q : Query) : T recarray :=
  act (AQuery q);; mret (zbud q).

(** [if recs.shape[0] == 0: raise Exception('No records returned.')] *)
Definition check (recs : recarray) : T unit :=
  if shape0 recs =? 0 then throw (Exception "No records returned.")
  else mret tt.

Definition test_zonbud_write_csv_kstpkper : T unit :=
  act (AZoneBudget (path_join pth cbc_f));;
  act AGetKstpkper;;
  act (AGetBudget kstpkper_last []);;
  act (AToCsv (path_join pth "zbud.csv") "zonbud");;
  act (AToCsv (path_join pth "zbud_pandas.csv") "pandas");;
  mret tt.

Definition test_zonbud_write_csv_totim : T unit :=
  act (AZoneBudget (path_join pth cbc_f));;
  act AGetTimes;;
  act (AGetBudget totim_last []);;
  act (AToCsv (path_join pth "zbud.csv") "zonbud");;
  act (AToCsv (path_join pth "zbud_pandas.csv") "pandas");;
  mret tt.

Definition test_zonbud_budget : T unit :=
  act (AZoneBudget (path_join pth cbc_f));;
  act AGetKstpkper;;
  act (AGetBudget kstpkper_last []);;
  recs ← query (get_records None None);
  check recs;;
  let recordlist := [("IN", "CONSTANT HEAD"); ("IN", "FROM ZONE 1")] in
  recs ← query (get_records (Some recordlist) (Some [ZNum 1; ZNum 3]));
  check recs;;
  mret tt.

Definition test_zonbud_mass_balance : T unit :=
  act (AZoneBudget (path_join pth cbc_f));;
  act AGetKstpkper;;
  act (AGetBudget kstpkper_last []);;
  recs ← query get_mass_balance;
  check recs;;
  recs ← query (get_total_outflow [ZNum 3]);
  check recs;;
  recs ← query (get_total_inflow [ZNum 1; ZNum 2]);
  check recs;;
  recs ← query get_percent_error;
  check recs;;
  mret tt.

Definition test_zonbud_aliases : T unit :=
  act (AZoneBudget (path_join pth cbc_f));;
  act AGetKstpkper;;
  let aliases := [(1, "Trey"); (2, "Mike"); (4, "Page"); (0, "Carini")] in
  act (AGetBudget kstpkper_last aliases);;
  act (AToCsv (path_join pth "zbud_aliases.csv") "zonbud");;
  recs ← query (get_records None None);
  check recs;;
  act (APrintDtype (get_records None None));;
  act (APrintRecs (get_records None None));;
  let recordlist := [("IN", "FROM Mike")] in
  let q := get_records (Some recordlist) (Some [ZAlias "Trey"; ZNum 3]) in
  recs ← query q;
  act (APrintDtype q);;
  act (APrintRecs q);;
  mret tt.

(** The test functions of the file. *)
Definition tests : list (T unit) :=
  [test_zonbud_write_csv_kstpkper; test_zonbud_write_csv_totim;
   test_zonbud_budget; test_zonbud_mass_balance; test_zonbud_aliases].

(** The queries that returned no row. *)
Definition no_rows (q : Query) : Prop := shape0 (zbud q) = 0.

End Budget.
End ZonbudTest.

(** An element is not in a list of constants that all differ from it. *)
Ltac fresh_in_log :=
  let Hin := fresh "Hin" in
  intros Hin; apply list_elem_of_In in Hin; simpl in Hin;
  repeat (destruct Hin as [Hin | Hin]; [discriminate Hin |]); exact Hin.

(* ===================================================================== *)
(** ** The layout of a zone file *)
(* ===================================================================== *)

Module ZoneFile.

(** A line of a file: characters other than the line ends LF and CR, then
    LF. *)
Fixpoint is_line (s : text) : bool :=
  match s with
  | [] => false
  | c :: r =>
      if N.eqb c PyText.LF then match r with [] => true | _ => false end
      else negb (N.eqb c PyText.CR) && is_line r
  end.

Definition starts_with_hash (s : text) : bool :=
  match s with
  | c :: _ => N.eqb c hash
  | [] => false
  end.

Fixpoint concat (ls : list text) : text :=
  match ls with
  | [] => []
  | l :: ls' => l ++ concat ls'
  end.

(** A zone of the file: the line that starts with its name [ze_name], the
    text [ze_text] of its array, and the array object [ze_array] that
    [Util2d.load] makes of that text. *)
Record entry := mkEntry {
  ze_line : text;
  ze_name : text;
  ze_text : text;
  ze_array : Util2d
}.

Definition entry_text (e : entry) : text := ze_line e ++ ze_text e.

(** The text that [load] starts to read: of the file named, as a file
    object opened in text mode delivers it, or what is left of the file
    object. *)
Definition file_text (w : World) (f : FileArg) : option text :=
  match f with
  | Filename path => PyText.universal_newlines <$> fs w !! path
  | FileObj h => handles w !! h
  end.

(** The shape of the arrays for the [nrow] and [ncol] passed to [load]. *)
Definition shape_for (model : Model) (nrow ncol : option Z)
  : option Z * option Z :=
  match nrow, ncol with
  | None, None =>
      let '(r, c, _, _) := nrow_ncol_nlay_nper model in (Some r, Some c)
  | _, _ => (nrow, ncol)
  end.

Section Words.
Context {py : PyText.Builtins}.

(** The first word of a line, when it has one. *)
Definition first_token (line : text) : option text :=
  head (PyText.split (PyText.strip line)).

End Words.
End ZoneFile.


(** A computation that leaves the call log as it is and is not cut
    short. *)
Definition silent {A} (m : M A) : Prop :=
  forall w r w', m w = (r, w') -> calls w' = calls w /\ r <> OutOfFuel.

(** The calls of one turn of the loop over the zones. *)
Definition zone_call (model : Model) (shape : option Z * option Z)
    (c : Call) : Prop :=
  (exists name, c = Util2d_load_call model shape np_int name)
  \/ (exists key, c = add_pop_key_list model key).

Definition is_add_package (c : Call) : Prop :=
  exists m p, c = add_package m p.

(** File object [h] moved to the text [rest]. *)
Definition set_handle (h : nat) (rest : text) (w : World) : World :=
  mkWorld (fs w) (<[h := rest]> (handles w)) (stdout w) (calls w).

Module ZoneLayout.
Import ZoneFile.

(** A comment of the header: a line that starts with [#]. *)
Definition comment_line (l : text) : Prop :=
  is_line l = true /\ starts_with_hash l = true.

Section Entries.
Context {py : PyText.Builtins}.
Variable Util2d_load :
  text -> Model -> option Z * option Z -> dtype -> text ->
  option ExtUnitDict -> (Util2d + exn) * text.
Variable model : Model.
Variable shape : option Z * option Z.
Variable ext_unit_dict : option ExtUnitDict.

(** The line of dataset 1: a line that does not start with [#] and whose
    first word reads as the integer [nzn]. *)
Definition count_line (l : text) (nzn : Z) : Prop :=
  is_line l = true /\ starts_with_hash l = false
  /\ exists tok, first_token l = Some tok /\ PyText.int tok = Some nzn.

(** A zone entry that can be read: its first line starts with the name,
    and [Util2d.load], called for that zone, makes the array of the text
    that follows and reads no further. *)
Definition entry_ok (e : entry) : Prop :=
  is_line (ze_line e) = true
  /\ first_token (ze_line e) = Some (ze_name e)
  /\ forall rest,
       Util2d_load (ze_text e ++ rest) model shape np_int
                   (ModflowZon.zonnam_of (ze_name e)) ext_unit_dict
       = (inl (ze_array e), rest).

(** The name under which an entry is stored, and the item stored. *)
Definition entry_key (e : entry) : text := ModflowZon.zonnam_of (ze_name e).
Definition entry_item (e : entry) : text * Util2d :=
  (entry_key e, ze_array e).

End Entries.

(** The text of a zone file: the comments, the line of dataset 1, the
    entries, and whatever follows them. *)
Definition zone_file_text (comments : list text) (line1 : text)
    (entries : list entry) (rest : text) : text :=
  concat comments ++ line1 ++ concat (map entry_text entries) ++ rest.

End ZoneLayout.

(** Between [w] and [w'] a file was created or its text changed. *)
Definition writes_a_file (w w' : World) : Prop :=
  exists path txt, fs w' !! path = Some txt /\ fs w !! path <> Some txt.

(** The object a computation returns ([∅] when it raises), and the world it
    leaves. *)
Definition returned (r : Outcome Obj * World) : Obj :=
  match r.1 with Ok o => o | _ => ∅ end.

(** A zone dictionary with one zone. *)
Definition one_zone : OrderedDict := [(u "zone1", mkUtil2d [[1; 1; 2]] None)].

(** A zone file whose first line after the comment is not a number. *)
Definition bad_world : World :=
  mkWorld (<["bad.zon" := lines ["# zones"; "two"]]> ∅) [] [] [].

(* ===================================================================== *)
(** ** What a run of [load] does, read off the file *)
(* ===================================================================== *)

(** [d[k]] on an [OrderedDict]; [None] stands for [KeyError]. *)
Fixpoint od_get (k : text) (d : OrderedDict) : option Util2d :=
  match d with
  | [] => None
  | (k', v) :: d' => if text_eqb k' k then Some v else od_get k d'
  end.

Module ZoneTrace.
Import ZoneFile ZoneLayout.

Definition loading_msg : text := u "loading zone package file..." ++ newline.

(** The look-up of the dimensions, made when neither is passed. *)
Definition dims_calls (model : Model) (nrow ncol : option Z) : list Call :=
  match nrow, ncol with
  | None, None => [get_nrow_ncol_nlay_nper model]
  | _, _ => []
  end.

(** The file object that [load] reads, and the open file objects once it
    has it. *)
Definition handle_of (f : FileArg) (w : World) : nat :=
  match f with
  | FileObj h => h
  | Filename _ => length (handles w)
  end.

Definition opened (f : FileArg) (w : World) : list text :=
  match f with
  | FileObj _ => handles w
  | Filename path =>
      handles w ++ [PyText.universal_newlines (default [] (fs w !! path))]
  end.

(** The world after the header and dataset 1 have been read and the shape
    is known; the file object is left at [body]. *)
Definition after_header (f : FileArg) (model : Model) (nrow ncol : option Z)
    (body : text) (w : World) : World :=
  mkWorld (fs w) (<[handle_of f w := body]> (opened f w))
          (stdout w ++ (if verbose model then [loading_msg] else []))
          (calls w ++ dims_calls model nrow ncol).

Section Zones.
Context {py : PyText.Builtins}.

(** The message written for a zone when the model is verbose. *)
Definition zone_msg (zonnam : text) : text :=
  u "   reading data for " ++ dquote ++ PyText.ljust 10 zonnam ++ dquote
  ++ u " zone" ++ newline.

(** The calls made for one entry: [Util2d.load], then [add_pop_key_list]
    when the array has a [locat]. *)
Definition entry_calls (model : Model) (shape : option Z * option Z)
    (e : entry) : list Call :=
  Util2d_load_call model shape np_int (entry_key e)
  :: match locat (ze_array e) with
     | Some key => [add_pop_key_list model key]
     | None => []
     end.

(** [zone_dict[zonnam] = t] for one entry, and for the entries in order. *)
Definition add_zone (d : OrderedDict) (e : entry) : OrderedDict :=
  od_set (entry_key e) (ze_array e) d.

Definition zones_of (entries : list entry) : OrderedDict :=
  fold_left add_zone entries [].

(** The world after the entries have been read from file object [h], which
    is left at [rest]. *)
Definition after_entries (h : nat) (model : Model)
    (shape : option Z * option Z) (entries : list entry) (rest : text)
    (w : World) : World :=
  mkWorld (fs w) (<[h := rest]> (handles w))
          (stdout w ++ (if verbose model
                        then map (fun e => zone_msg (entry_key e)) entries
                        else []))
          (calls w ++ flat_map (entry_calls model shape) entries).

End Zones.
End ZoneTrace.

(** A zone file in which two names are stored under one key. *)
Definition dup_text : text :=
  lines ["2"; "ZoneAlphaBeta1"; "1 1 2"; "zonealphabeta2"; "3 3 3"].

Definition dup_entries : list ZoneFile.entry :=
  [ZoneFile.mkEntry (lines ["ZoneAlphaBeta1"]) (u "ZoneAlphaBeta1")
                    (lines ["1 1 2"]) (mkUtil2d [[1; 1; 2]] None);
   ZoneFile.mkEntry (lines ["zonealphabeta2"]) (u "zonealphabeta2")
                    (lines ["3 3 3"]) (mkUtil2d [[3; 3; 3]] None)].

Definition dup_world : World :=
  mkWorld (<["dup.zon" := dup_text]> ∅) [] [] [].

(** The entries of [test.zon]. *)
Definition zone_entries : list ZoneFile.entry :=
  [ZoneFile.mkEntry (lines ["ZoneAlphaBeta"]) (u "ZoneAlphaBeta")
                    (lines ["1 1 2"]) (mkUtil2d [[1; 1; 2]] None);
   ZoneFile.mkEntry (lines ["south"]) (u "south")
                    (lines ["3 3 3"]) (mkUtil2d [[3; 3; 3]] None)].

(** A model that reports what it reads. *)
Definition verbose_model : Model := mkModel true (2, 3, 1, 1).

(** The hypotheses on the layout of a concrete file, by computation. *)
Ltac layout_hyps :=
  match goal with
  | |- ZoneFile.file_text _ _ = Some _ => reflexivity
  | |- Forall ZoneLayout.comment_line _ =>
      repeat (apply Forall_cons; split; [split; reflexivity |]);
      apply Forall_nil_2
  | |- ZoneLayout.count_line _ _ =>
      split; [reflexivity |]; split; [reflexivity |];
      eexists; split; reflexivity
  | |- Forall (ZoneLayout.entry_ok _ _ _ _) _ =>
      repeat (apply Forall_cons; split;
              [split; [reflexivity |];
               split; [reflexivity | intros ?; reflexivity] |]);
      apply Forall_nil_2
  end.

(** Worlds with one file. *)
Definition file_world (path : string) (txt : text) : World :=
  mkWorld (<[path := txt]> ∅) [] [] [].

(** Three zones announced, two present. *)
Definition short_text : text :=
  lines ["3"; "ZoneAlphaBeta"; "1 1 2"; "south"; "3 3 3"].

(** The array of the second zone is not made of integers. *)
Definition broken_text : text :=
  lines ["2"; "ZoneAlphaBeta"; "1 1 2"; "south"; "3 x 3"].

(** A zone whose name is ten times U+0130, the capital I with a dot
    above. *)
Definition dotted_name : text := replicate 10 304%N.
Definition dotted_text : text :=
  lines ["1"] ++ dotted_name ++ newline ++ lines ["1 1 2"].

(* ===================================================================== *)
(** ** autotest/t035_test.py: the script as a whole *)
(* ===================================================================== *)

Module ZonbudMain.
Import ZonbudTest.

(** The queries of a log, in order. *)
Definition queries_made (log : list Action) : list Query :=
  omap (fun a => match a with AQuery q => Some q | _ => None end) log.

(** The number of tests that have started: each builds one [ZoneBudget]. *)
Definition tests_started (log : list Action) : nat :=
  length (List.filter
            (fun a => match a with AZoneBudget _ => true | _ => false end)
            log).

Section Main.
Variable recarray : Type.
Variable shape0 : recarray -> Z.

(** Each test builds its own budget object: [za], [zb] and [zm] are those
    of [test_zonbud_aliases], [test_zonbud_budget] and
    [test_zonbud_mass_balance]. *)
Variable za zb zm : Query -> recarray.

(** The block under [if __name__ == '__main__']. *)
Definition main : T unit :=
  test_zonbud_write_csv_kstpkper;;
  test_zonbud_write_csv_totim;;
  test_zonbud_aliases recarray shape0 za;;
  test_zonbud_budget recarray shape0 zb;;
  test_zonbud_mass_balance recarray shape0 zm.

End Main.

(** The queries of a list up to the first that returns no row, that one
    included. *)
Fixpoint until_empty (rows : Query -> Z) (qs : list Query) : list Query :=
  match qs with
  | [] => []
  | q :: qs' => q :: (if rows q =? 0 then [] else until_empty rows qs')
  end.

(** The queries of the three tests that query, as their source lists
    them. *)
Definition q_all : Query := get_records None None.
Definition q_budget : Query :=
  get_records (Some [("IN", "CONSTANT HEAD"); ("IN", "FROM ZONE 1")])
              (Some [ZNum 1; ZNum 3]).
Definition q_alias : Query :=
  get_records (Some [("IN", "FROM Mike")]) (Some [ZAlias "Trey"; ZNum 3]).
Definition qs_mass_balance : list Query :=
  [get_mass_balance; get_total_outflow [ZNum 3];
   get_total_inflow [ZNum 1; ZNum 2]; get_percent_error].

(** For each test function, in the order of [ZonbudTest.tests], the queries
    whose result is checked, that is followed by
    [if recs.shape[0] == 0: raise ...]. *)
Definition checked_queries : list (list Query) :=
  [[]; []; [q_all; q_budget]; qs_mass_balance; [q_all]].

(** A budget that has rows for every query but the second [get_records] of
    [test_zonbud_aliases], the one with a record list. *)
Definition rows_but_alias (q : Query) : Z :=
  match q with
  | get_records (Some _) _ => 0
  | _ => 1
  end.

End ZonbudMain.

(* ===================================================================== *)
(** ** flopy/mf6/modflow/mfgwfriv.py: the class around the table *)
(* ===================================================================== *)

Module GwfrivClass.
Import ModflowGwfriv.

(** [ListTemplateGenerator(path)], of [..data.mfdatautil], is known here by
    the path it is built on. *)
Definition TemplatePath : Type := string * string * string * string.

Definition auxiliary : TemplatePath := ("gwf6", "riv", "options", "auxiliary").
Definition ts_filerecord : TemplatePath :=
  ("gwf6", "riv", "options", "ts_filerecord").
Definition obs_filerecord : TemplatePath :=
  ("gwf6", "riv", "options", "obs_filerecord").
Definition periodrecarray : TemplatePath :=
  ("gwf6", "riv", "period", "periodrecarray").

(** The template generators of the class, in the order of the source. *)
Definition templates : list TemplatePath :=
  [auxiliary; ts_filerecord; obs_filerecord; periodrecarray].

Section Init.
(** [MFPackage.build_mfdata] is outside these sources: it is taken as
    given, from the name of a variable and the value passed for it to the
    data object. *)
Variable PyVal : Type.
Variable MFData : Type.
Variable build_mfdata : string -> PyVal -> MFData.

(** The assignments [self.x = self.build_mfdata("y", v)] of
    [ModflowGwfriv.__init__], in order: the attribute [x], the name [y] and
    the value [v]. *)
Definition assignments
    (auxiliary auxmultname boundnames print_input print_flows save_flows
     ts_filerecord obs_filerecord mover maxbound periodrecarray : PyVal)
  : list (string * string * PyVal) :=
  [("auxiliary", "auxiliary", auxiliary);
   ("auxmultname", "auxmultname", auxmultname);
   ("boundnames", "boundnames", boundnames);
   ("print_input", "print_input", print_input);
   ("print_flows", "print_flows", print_flows);
   ("save_flows", "save_flows", save_flows);
   ("ts_filerecord", "ts_filerecord", ts_filerecord);
   ("obs_filerecord", "obs_filerecord", obs_filerecord);
   ("mover", "mover", mover);
   ("maxbound", "maxbound", maxbound);
   ("periodrecarray", "periodrecarray", periodrecarray)].

(** The attributes that [ModflowGwfriv.__init__] sets after the ancestor's
    constructor, in order, each with the data object built for it. *)
Definition __init__
    (auxiliary auxmultname boundnames print_input print_flows save_flows
     ts_filerecord obs_filerecord mover maxbound periodrecarray : PyVal)
  : list (string * MFData) :=
  map (fun '(attr, name, v) => (attr, build_mfdata name v))
      (assignments auxiliary auxmultname boundnames print_input print_flows
                   save_flows ts_filerecord obs_filerecord mover maxbound
                   periodrecarray).

End Init.

(** The name an entry of the table declares. *)
Definition name_of (e : list string) : string :=
  match attr "name" e with
  | [[n]] => n
  | _ => ""
  end.

(** The block of an entry. *)
Definition block_of (e : list string) : string :=
  match attr "block" e with
  | [[b]] => b
  | _ => ""
  end.

(** An entry has the flag [key] when it holds the string [key true] (or
    [key True]). *)
Definition has_flag (key : string) (e : list string) : bool :=
  bool_decide (attr key e = [["true"]]) || bool_decide (attr key e = [["True"]]).

(** The components of a record or of a record array: the words after
    [record] or [recarray] in its type. *)
Definition components (e : list string) : list string :=
  match attr "type" e with
  | [kind :: comps] =>
      if String.eqb kind "record" || String.eqb kind "recarray" then comps
      else []
  | _ => []
  end.

(** An entry is a list when it is a record or a record array, or has a
    shape. *)
Definition is_list (e : list string) : bool :=
  negb (bool_decide (components e = []))
  || negb (bool_decide (attr "shape" e = []))
     && negb (bool_decide (attr "shape" e = [[]])).

(** The entries that are not part of a record: the variables of the
    package. *)
Definition top_level : list (list string) :=
  List.filter (fun e => negb (has_flag "in_record" e)) dfn.

End GwfrivClass.
(* ===================================================================== *)
(** ** Lemmas on text *)
(* ===================================================================== *)

Example split_ex :
  PyText.split (py := py_demo) (PyText.strip (py := py_demo)
                                  (u "  Zone_A  1 2" ++ newline))
  = [u "Zone_A"; u "1"; u "2"].
Proof. reflexivity. Qed.

Example int_ex :
  PyDemo.int (u "1_0") = Some 10 /\ PyDemo.int (u "-3") = Some (-3)
  /\ PyDemo.int (u " 12 ") = Some 12
  /\ PyDemo.int (u "1__0") = None /\ PyDemo.int (u "x") = None
  /\ PyDemo.int (u "+") = None.
Proof. repeat split; reflexivity. Qed.

(** A literal of more than 4300 digits is refused. *)
Example int_limit_ex :
  PyDemo.int (replicate (Z.to_nat 4301) 49%N) = None
  /\ PyDemo.int (replicate (Z.to_nat 4300) 49%N) <> None.
Proof. split; [vm_compute; reflexivity |]. by vm_compute. Qed.

Example lower_ex :
  PyDemo.lower (u "Zone_A") = u "zone_a"
  /\ PyDemo.lower [304%N] = [105%N; 775%N].
Proof. split; reflexivity. Qed.

Example readline_ex :
  PyText.readline (lines ["# c"; "2"]) = (lines ["# c"], lines ["2"]).
Proof. reflexivity. Qed.

(** A file with the line ends of other systems is read as the same
    lines. *)
Example universal_newlines_ex :
  PyText.universal_newlines crlf_text = zone_text
  /\ PyText.universal_newlines cr_text = zone_text
  /\ PyText.universal_newlines zone_text = zone_text.
Proof. repeat split; vm_compute; reflexivity. Qed.

Lemma text_eqb_spec (a b : text) : reflect (a = b) (text_eqb a b).
Proof.
  revert b. induction a as [| x a IH]; intros [| y b]; simpl;
    try (constructor; congruence).
  destruct (N.eqb_spec x y) as [-> | Hne]; simpl.
  - destruct (IH b) as [-> | Hne]; constructor; congruence.
  - constructor. congruence.
Qed.

Lemma text_app_assoc (a b c : text) : (a ++ b) ++ c = a ++ (b ++ c).
Proof. symmetry. apply app_assoc. Qed.

Lemma zonnam_of_take {py : PyText.Builtins} (t0 : text) :
  ModflowZon.zonnam_of t0 = PyText.lower (take 10 t0).
Proof.
  unfold ModflowZon.zonnam_of, PyText.len.
  destruct (Z.ltb_spec 10 (Z.of_nat (length t0))) as [H | H]; [done |].
  by rewrite take_ge by lia.
Qed.

(** Reading a line gives back the line and leaves what follows it. *)
Lemma readline_line (l rest : text) :
  ZoneFile.is_line l = true -> PyText.readline (l ++ rest) = (l, rest).
Proof.
  induction l as [| c l IH]; simpl; [done |].
  destruct (N.eqb c PyText.LF) eqn:Hc.
  - by destruct l.
  - intros [_ Hl]%andb_prop. by rewrite IH.
Qed.

Lemma readline_length (s : text) :
  (length (PyText.readline s).1 + length (PyText.readline s).2
   = length s)%nat.
Proof.
  induction s as [| c s IH]; simpl; [done |].
  destruct (N.eqb c PyText.LF); simpl; [done |].
  destruct (PyText.readline s) as [l r]; simpl in *. lia.
Qed.

Lemma readline_empty (s : text) :
  (PyText.readline s).1 = [] -> s = [].
Proof.
  destruct s as [| c s]; simpl; [done |].
  destruct (N.eqb c PyText.LF); [done |].
  by destruct (PyText.readline s).
Qed.

(* ===================================================================== *)
(** ** Lemmas on the monad and its primitives *)
(* ===================================================================== *)

Lemma bind_run {A B} (m : M A) (k : A -> M B) (w : World) :
  (m ≫= k) w =
    match m w with
    | (Ok a, w') => k a w'
    | (Raise e, w') => (Raise e, w')
    | (OutOfFuel, w') => (OutOfFuel, w')
    end.
Proof. reflexivity. Qed.

Lemma bind_ok {A B} (m : M A) (k : A -> M B) (w w' : World) (a : A) :
  m w = (Ok a, w') -> (m ≫= k) w = k a w'.
Proof. intros H. by rewrite bind_run, H. Qed.

Lemma silent_ret {A} (a : A) : silent (ret a).
Proof. intros w r w' [= <- <-]. done. Qed.

Lemma silent_raise {A} (e : exn) : silent (@raise A e).
Proof. intros w r w' [= <- <-]. done. Qed.

Lemma silent_bind {A B} (m : M A) (k : A -> M B) :
  silent m -> (forall a, silent (k a)) -> silent (m ≫= k).
Proof.
  intros Hm Hk w r w'. rewrite bind_run.
  destruct (m w) as [[a | e |] w1] eqn:E; destruct (Hm _ _ _ E) as [Hc Hf].
  - intros H. destruct (Hk _ _ _ _ H) as [Hc' Hf']. split; congruence.
  - intros [= <- <-]. done.
  - done.
Qed.

Lemma silent_stdout_write (s : text) : silent (stdout_write s).
Proof. intros w r w' [= <- <-]. done. Qed.

Lemma silent_when (c : bool) (m : M unit) : silent m -> silent (when c m).
Proof. destruct c; [done |]. intros _. apply silent_ret. Qed.

Lemma silent_open (filename : string) : silent (open filename).
Proof.
  intros w r w'. unfold open. destruct (fs w !! filename); intros [= <- <-]; done.
Qed.

Lemma silent_readline (h : nat) : silent (readline h).
Proof.
  intros w r w'. unfold readline. destruct (handles w !! h) as [txt |].
  - destruct (PyText.readline txt). intros [= <- <-]. done.
  - intros [= <- <-]. done.
Qed.

Lemma silent_str_first (s : text) : silent (str_first s).
Proof. destruct s; [apply silent_raise | apply silent_ret]. Qed.

Lemma silent_list_first {A} (t : list A) : silent (list_first t).
Proof. destruct t; [apply silent_raise | apply silent_ret]. Qed.

Lemma silent_py_int {py : PyText.Builtins} (s : text) : silent (py_int s).
Proof. unfold py_int. destruct (PyText.int s); [apply silent_ret | apply silent_raise]. Qed.

Lemma silent_getattr (o : Obj) (name : string) : silent (getattr o name).
Proof. unfold getattr. destruct (o !! name); [apply silent_ret | apply silent_raise]. Qed.

(** With fuel for one turn more than there are characters left, the header
    loop is not cut short. *)
Lemma header_loop_silent (h : nat) (fuel : nat) (w : World) r w' :
  (length (default [] (handles w !! h)) < fuel)%nat ->
  ModflowZon.header_loop fuel h w = (r, w') ->
  calls w' = calls w /\ r <> OutOfFuel.
Proof.
  revert w. induction fuel as [| fuel IH]; intros w Hlen; [lia |].
  simpl. rewrite bind_run.
  destruct (readline h w) as [[line | e |] w1] eqn:E1;
    destruct (silent_readline _ _ _ _ E1) as [Hc1 Hf1]; try done;
    [| intros [= <- <-]; done].
  rewrite bind_run. destruct line as [| c line]; simpl.
  { intros [= <- <-]. done. }
  destruct (N.eqb c hash); simpl.
  - intros H. apply IH in H as [Hc Hf]; [split; congruence |].
    unfold readline in E1. destruct (handles w !! h) as [txt |] eqn:Eh; [| done].
    pose proof (readline_length txt) as Hl.
    destruct (PyText.readline txt) as [l rest] eqn:Er. simpl in *.
    injection E1 as -> <-. simpl.
    rewrite list_lookup_insert_eq by (by eapply lookup_lt_Some).
    simpl in *. lia.
  - intros [= <- <-]. done.
Qed.

Lemma silent_header (h : nat) : silent (ModflowZon.header h).
Proof.
  intros w r w'. unfold ModflowZon.header. apply header_loop_silent. lia.
Qed.

(* ===================================================================== *)
(** ** The call log of the package code *)
(* ===================================================================== *)

Section Calls.
Context {py : PyText.Builtins}.
Variable Package_init : Model -> string -> string -> Z -> Obj.
Variable Util2d_load :
  text -> Model -> option Z * option Z -> dtype -> text ->
  option ExtUnitDict -> (Util2d + exn) * text.

Lemma silent_Util2d_read h model shape dt name eud :
  silent (ModflowZon.Util2d_read Util2d_load h model shape dt name eud).
Proof.
  intros w r w'. unfold ModflowZon.Util2d_read.
  destruct (handles w !! h) as [txt |]; [| intros [= <- <-]; done].
  destruct (Util2d_load _ _ _ _ _ _) as [[t | e] rest]; intros [= <- <-]; done.
Qed.

Lemma read_zones_calls (n : nat) h model shape eud :
  forall acc w r w',
    ModflowZon.read_zones Util2d_load n h model shape eud acc w = (r, w') ->
    exists new, calls w' = calls w ++ new
                /\ Forall (zone_call model shape) new /\ r <> OutOfFuel.
Proof.
  induction n as [| n IH]; intros acc w r w'; simpl.
  { intros [= <- <-]. exists []. by rewrite app_nil_r. }
  rewrite bind_run.
  destruct (readline h w) as [[line | e |] w1] eqn:E1;
    destruct (silent_readline _ _ _ _ E1) as [Hc1 Hf1]; try done;
    [| intros [= <- <-]; exists []; by rewrite app_nil_r].
  rewrite bind_run.
  destruct (list_first _ w1) as [[t0 | e |] w2] eqn:E2;
    destruct (silent_list_first _ _ _ _ E2) as [Hc2 Hf2]; try done;
    [| intros [= <- <-]; exists []; rewrite app_nil_r; split; [congruence | done]].
  rewrite bind_run.
  destruct (when _ _ w2) as [[[] | e |] w3] eqn:E3;
    destruct (silent_when _ _ (silent_stdout_write _) _ _ _ E3) as [Hc3 Hf3];
    try done;
    [| intros [= <- <-]; exists []; rewrite app_nil_r; split; [congruence | done]].
  rewrite bind_run. unfold ModflowZon.Util2d_load_on at 1. rewrite bind_run.
  simpl.
  destruct (ModflowZon.Util2d_read Util2d_load h model shape np_int
              (ModflowZon.zonnam_of t0) eud _) as [[t | e |] w4] eqn:E4;
    destruct (silent_Util2d_read _ _ _ _ _ _ _ _ _ E4) as [Hc4 Hf4];
    try done; simpl in Hc4.
  2: { intros [= <- <-].
       exists (Util2d_load_call model shape np_int (ModflowZon.zonnam_of t0)
               :: nil).
       split; [by rewrite Hc4, Hc3, Hc2, Hc1 |].
       split; [| done]. constructor; [left; eauto | constructor]. }
  rewrite bind_run.
  destruct (locat t) as [u |]; simpl.
  - intros H. apply IH in H as (new & Hn & HF & Hr). simpl in Hn.
    exists (Util2d_load_call model shape np_int (ModflowZon.zonnam_of t0)
            :: add_pop_key_list model u :: new).
    split; [| split; [| done]].
    + rewrite Hn, Hc4, Hc3, Hc2, Hc1. by rewrite <- !app_assoc.
    + constructor; [left; eauto |]. constructor; [right; eauto | done].
  - intros H. apply IH in H as (new & Hn & HF & Hr).
    exists (Util2d_load_call model shape np_int (ModflowZon.zonnam_of t0) :: new).
    split; [| split; [| done]].
    + rewrite Hn, Hc4, Hc3, Hc2, Hc1. by rewrite <- !app_assoc.
    + constructor; [left; eauto | done].
Qed.

Lemma init_calls model zone_dict extension unitnumber w r w' :
  ModflowZon.__init__ Package_init model zone_dict extension unitnumber w
    = (r, w') ->
  (exists e, r = Raise e /\ calls w' = calls w)
  \/ (exists self m, r = Ok self /\ calls w' = calls w ++ [add_package m self]).
Proof.
  unfold ModflowZon.__init__. rewrite bind_run.
  match goal with |- context [getattr ?o ?n w] =>
    destruct (getattr o n w) as [[v | e |] w1] eqn:E1;
    destruct (silent_getattr _ _ _ _ _ E1) as [Hc1 Hf1]; try done
  end; [| intros [= <- <-]; left; eauto].
  destruct v; try solve [intros [= <- <-]; left; eauto].
  intros [= <- <-]. right. do 2 eexists. split; [done |]. simpl. by rewrite Hc1.
Qed.

Lemma model_dims_run model w :
  model_dims model w =
    (Ok (nrow_ncol_nlay_nper model),
     mkWorld (fs w) (handles w) (stdout w)
             (calls w ++ [get_nrow_ncol_nlay_nper model])).
Proof. reflexivity. Qed.

(** The calls of [load], in order: at most one look-up of the dimensions,
    made only when neither [nrow] nor [ncol] is passed; the calls of the
    loop over the zones, all with the shape that follows from [nrow] and
    [ncol]; and [add_package], made exactly when [load] returns. *)
Lemma load_calls f model nrow ncol eud w r w' :
  ModflowZon.load Package_init Util2d_load f model nrow ncol eud w = (r, w') ->
  exists dims zones pkg,
    calls w' = calls w ++ dims ++ zones ++ pkg
    /\ (dims = [] \/
        nrow = None /\ ncol = None /\ dims = [get_nrow_ncol_nlay_nper model])
    /\ Forall (zone_call model (ZoneFile.shape_for model nrow ncol)) zones
    /\ ((exists e, r = Raise e /\ pkg = [])
        \/ (exists self m, r = Ok self /\ pkg = [add_package m self])).
Proof.
  unfold ModflowZon.load. rewrite bind_run.
  destruct (when _ _ w) as [[[] | e |] w1] eqn:E1;
    destruct (silent_when _ _ (silent_stdout_write _) _ _ _ E1) as [Hc1 Hf1];
    try done.
  2: { intros [= <- <-]. exists [], [], []. rewrite !app_nil_r.
       split; [done |]. split; [by left |]. split; [constructor |]. left; eauto. }
  rewrite bind_run.
  destruct (match f with FileObj h => ret h | Filename p => open p end w1)
    as [[h | e |] w2] eqn:E2.
  2: { intros [= <- <-]. exists [], [], []. rewrite !app_nil_r.
       split; [| split; [by left | split; [constructor | left; eauto]]].
       destruct f; [apply silent_open in E2 | apply silent_ret in E2];
         destruct E2; congruence. }
  2: { destruct f; [apply silent_open in E2 | apply silent_ret in E2];
         by destruct E2. }
  assert (Hc2 : calls w2 = calls w1).
  { destruct f; [apply silent_open in E2 | apply silent_ret in E2];
      by destruct E2. }
  rewrite bind_run.
  destruct (ModflowZon.header h w2) as [[line | e |] w3] eqn:E3;
    destruct (silent_header _ _ _ _ E3) as [Hc3 Hf3]; try done.
  2: { intros [= <- <-]. exists [], [], []. rewrite !app_nil_r.
       split; [congruence |]. split; [by left |]. split; [constructor |].
       left; eauto. }
  rewrite bind_run.
  destruct (list_first _ w3) as [[t0 | e |] w4] eqn:E4;
    destruct (silent_list_first _ _ _ _ E4) as [Hc4 Hf4]; try done.
  2: { intros [= <- <-]. exists [], [], []. rewrite !app_nil_r.
       split; [congruence |]. split; [by left |]. split; [constructor |].
       left; eauto. }
  rewrite bind_run.
  destruct (py_int t0 w4) as [[nzn | e |] w5] eqn:E5;
    destruct (silent_py_int _ _ _ _ E5) as [Hc5 Hf5]; try done.
  2: { intros [= <- <-]. exists [], [], []. rewrite !app_nil_r.
       split; [congruence |]. split; [by left |]. split; [constructor |].
       left; eauto. }
  rewrite bind_run.
  assert (Hpre : calls w5 = calls w) by congruence.
  set (shape := ZoneFile.shape_for model nrow ncol).
  assert (Hshape : exists dims w6,
    (match nrow, ncol with
     | None, None =>
         d ← model_dims model;
         let '(nrow0, ncol0, _, _) := d in ret (Some nrow0, Some ncol0)
     | _, _ => ret (nrow, ncol)
     end) w5 = (Ok shape, w6)
    /\ calls w6 = calls w ++ dims
    /\ (dims = [] \/
        nrow = None /\ ncol = None /\ dims = [get_nrow_ncol_nlay_nper model])).
  { unfold shape, ZoneFile.shape_for.
    destruct nrow as [r0 |], ncol as [c0 |];
      try (exists [], w5; rewrite app_nil_r; split; [done |]; split; [done | by left]).
    rewrite bind_run, model_dims_run.
    destruct (nrow_ncol_nlay_nper model) as [[[r0 c0] l0] p0].
    eexists [_], _. split; [done |]. simpl. rewrite Hpre.
    split; [done |]. right. done. }
  destruct Hshape as (dims & w6 & -> & Hc6 & Hdims).
  rewrite bind_run.
  destruct (ModflowZon.read_zones _ _ _ _ _ _ _ w6) as [[zd | e |] w7] eqn:E7;
    destruct (read_zones_calls _ _ _ _ _ _ _ _ _ E7) as (zones & Hc7 & HF & Hf7);
    try done.
  2: { intros [= <- <-]. exists dims, zones, []. rewrite app_nil_r.
       split; [by rewrite Hc7, Hc6, app_assoc |]. split; [done |].
       split; [done |]. left; eauto. }
  unfold ModflowZon.new. intros H.
  destruct (init_calls _ _ _ _ _ _ _ H) as [(e & -> & Hc8) | (self & m & -> & Hc8)].
  - exists dims, zones, []. rewrite app_nil_r.
    split; [by rewrite Hc8, Hc7, Hc6, app_assoc |]. split; [done |].
    split; [done |]. left; eauto.
  - exists dims, zones, [add_package m self].
    split; [by rewrite Hc8, Hc7, Hc6, <- !app_assoc |]. split; [done |].
    split; [done |]. right; eauto.
Qed.

End Calls.

(* ===================================================================== *)
(** ** Reading a well-formed zone file *)
(* ===================================================================== *)

Lemma is_line_nonempty (l : text) :
  ZoneFile.is_line l = true -> (1 <= length l)%nat.
Proof. destruct l; simpl; [done | lia]. Qed.

Lemma comments_length (comments : list text) (x : text) :
  Forall ZoneLayout.comment_line comments ->
  (length comments <= length (ZoneFile.concat comments ++ x))%nat.
Proof.
  induction 1 as [| l ls [Hl _] _ IH]; simpl; [lia |].
  rewrite text_app_assoc, length_app.
  apply is_line_nonempty in Hl. lia.
Qed.

Lemma set_handle_twice (h : nat) (a b : text) (w : World) :
  set_handle h b (set_handle h a w) = set_handle h b w.
Proof. unfold set_handle. simpl. by rewrite list_insert_insert_eq. Qed.

Lemma set_handle_lookup (h : nat) (txt rest : text) (w : World) :
  handles w !! h = Some txt -> handles (set_handle h rest w) !! h = Some rest.
Proof.
  intros H. simpl. apply list_lookup_insert_eq. by eapply lookup_lt_Some.
Qed.

Lemma readline_run (h : nat) (l rest : text) (w : World) :
  handles w !! h = Some (l ++ rest) -> ZoneFile.is_line l = true ->
  readline h w = (Ok l, set_handle h rest w).
Proof.
  intros Hh Hl. unfold readline. rewrite Hh. by rewrite readline_line.
Qed.

Lemma header_loop_run (h : nat) (line rest : text) :
  ZoneFile.is_line line = true -> ZoneFile.starts_with_hash line = false ->
  forall comments fuel w,
    Forall ZoneLayout.comment_line comments ->
    handles w !! h = Some (ZoneFile.concat comments ++ line ++ rest) ->
    (length comments < fuel)%nat ->
    ModflowZon.header_loop fuel h w = (Ok line, set_handle h rest w).
Proof.
  intros Hline Hhash comments.
  induction comments as [| c cs IH]; intros fuel w HF Hh Hfuel;
    (destruct fuel as [| fuel]; [simpl in Hfuel; lia |]); simpl.
  - simpl in Hh. 
    rewrite (bind_ok _ _ _ _ _ (readline_run _ _ _ _ Hh Hline)).
    destruct line as [| x line]; [done |]. simpl in Hhash.
    rewrite bind_run. simpl. by rewrite Hhash.
  - apply Forall_cons in HF as [[Hc Hc'] HF]. simpl in Hh.
    rewrite text_app_assoc in Hh.
    rewrite (bind_ok _ _ _ _ _ (readline_run _ _ _ _ Hh Hc)).
    destruct c as [| x c]; [done |]. simpl in Hc'.
    rewrite bind_run. simpl. rewrite Hc'. simpl.
    rewrite (IH fuel (set_handle h _ w) HF).
    + by rewrite set_handle_twice.
    + by eapply set_handle_lookup.
    + simpl in Hfuel. lia.
Qed.

Lemma header_run (h : nat) (comments : list text) (line rest : text) w :
  Forall ZoneLayout.comment_line comments ->
  ZoneFile.is_line line = true -> ZoneFile.starts_with_hash line = false ->
  handles w !! h = Some (ZoneFile.concat comments ++ line ++ rest) ->
  ModflowZon.header h w = (Ok line, set_handle h rest w).
Proof.
  intros HF Hl Hhash Hh. unfold ModflowZon.header.
  apply (header_loop_run h line rest Hl Hhash comments); [done | done |].
  rewrite Hh. simpl. pose proof (comments_length comments (line ++ rest) HF). lia.
Qed.

(** Assigning a new key puts the item at the end. *)
Lemma od_set_fresh (k : text) (v : Util2d) (d : OrderedDict) :
  k ∉ od_keys d -> od_set k v d = d ++ [(k, v)].
Proof.
  induction d as [| [k' v'] d IH]; simpl; [done |].
  intros Hk. apply not_elem_of_cons in Hk as [Hne Hk].
  destruct (text_eqb_spec k' k) as [-> | _]; [done |].
  by rewrite IH.
Qed.

Lemma od_keys_app (d1 d2 : OrderedDict) :
  od_keys (d1 ++ d2) = od_keys d1 ++ od_keys d2.
Proof. unfold od_keys. apply map_app. Qed.

Section Reading.
Context {py : PyText.Builtins}.
Variable Package_init : Model -> string -> string -> Z -> Obj.
Variable Util2d_load :
  text -> Model -> option Z * option Z -> dtype -> text ->
  option ExtUnitDict -> (Util2d + exn) * text.

(** The ancestor's constructor sets [self.parent] to the model, as the
    comment at its call says. *)
Hypothesis Package_init_parent :
  forall model extension name unitnumber,
    Package_init model extension name unitnumber !! "parent"
    = Some (VModel model).

Lemma init_run model zone_dict extension unitnumber w :
  exists self,
    ModflowZon.__init__ Package_init model zone_dict extension unitnumber w
    = (Ok self,
       mkWorld (fs w) (handles w) (stdout w)
               (calls w ++ [add_package model self]))
    /\ self !! "nzn"
       = Some (VInt match zone_dict with Some d => od_len d | None => 0 end)
    /\ self !! "zone_dict"
       = match zone_dict with
         | Some d => Some (VDict d)
         | None => Package_init model extension "ZONE" unitnumber !! "zone_dict"
         end.
Proof.
  unfold ModflowZon.__init__.
  match goal with |- context [getattr ?o "parent"] => set (self := o) end.
  assert (Hp : self !! "parent" = Some (VModel model)).
  { unfold self.
    destruct zone_dict; simplify_map_eq;
      first [done | apply Package_init_parent]. }
  exists self. split; [| split].
  - rewrite bind_run. unfold getattr. rewrite Hp. reflexivity.
  - unfold self. destruct zone_dict; by simplify_map_eq.
  - unfold self. destruct zone_dict; by simplify_map_eq.
Qed.

Lemma read_zones_run h model shape eud :
  forall entries acc w rest,
    Forall (ZoneLayout.entry_ok Util2d_load model shape eud) entries ->
    handles w !! h
      = Some (ZoneFile.concat (map ZoneFile.entry_text entries) ++ rest) ->
    exists w',
      ModflowZon.read_zones Util2d_load (length entries) h model shape eud acc w
      = (Ok (fold_left (fun d e => od_set (ZoneLayout.entry_key e)
                                          (ZoneFile.ze_array e) d)
                       entries acc), w')
      /\ handles w' !! h = Some rest.
Proof.
  induction entries as [| e es IH]; intros acc w rest HF Hh; simpl.
  { exists w. split; [done |]. by rewrite Hh. }
  apply Forall_cons in HF as [(Hl & Htok & Hread) HF].
  simpl in Hh. unfold ZoneFile.entry_text in Hh at 1.
  rewrite !text_app_assoc in Hh.
  rewrite (bind_ok _ _ _ _ _ (readline_run _ _ _ _ Hh Hl)).
  unfold ZoneFile.first_token in Htok.
  destruct (PyText.split (PyText.strip (ZoneFile.ze_line e))) as [| t0 ts] eqn:Et;
    [done |]. injection Htok as ->.
  rewrite bind_run. simpl.
  rewrite bind_run.
  set (w1 := set_handle h _ w).
  assert (Hh1 : handles w1 !! h = Some (ZoneFile.ze_text e ++
            ZoneFile.concat (map ZoneFile.entry_text es) ++ rest))
    by (by eapply set_handle_lookup).
  destruct (when _ _ w1) as [r2 w2] eqn:E2.
  assert (Hw2 : r2 = Ok tt /\ handles w2 = handles w1).
  { unfold when in E2. destruct (verbose model); injection E2 as <- <-; done. }
  destruct Hw2 as [-> Hh2].
  rewrite bind_run. unfold ModflowZon.Util2d_load_on. rewrite bind_run. simpl.
  unfold ModflowZon.Util2d_read at 1. simpl. rewrite Hh2, Hh1, Hread.
  rewrite bind_run.
  match goal with |- context [ModflowZon.read_zones _ _ _ _ _ _ ?a] =>
    set (acc' := a) end.
  destruct (locat (ZoneFile.ze_array e)); simpl.
  - match goal with |- context [ModflowZon.read_zones _ _ _ _ _ _ _ ?w] =>
      destruct (IH acc' w rest HF) as (w' & -> & Hw') end.
    + simpl. apply list_lookup_insert_eq.
      by eapply lookup_lt_Some.
    + eauto.
  - match goal with |- context [ModflowZon.read_zones _ _ _ _ _ _ _ ?w] =>
      destruct (IH acc' w rest HF) as (w' & -> & Hw') end.
    + simpl. apply list_lookup_insert_eq.
      by eapply lookup_lt_Some.
    + eauto.
Qed.

Lemma fold_od_set_fresh (entries : list ZoneFile.entry) :
  forall acc,
    NoDup (map ZoneLayout.entry_key entries) ->
    (forall k, k ∈ map ZoneLayout.entry_key entries -> k ∉ od_keys acc) ->
    fold_left (fun d e => od_set (ZoneLayout.entry_key e)
                                 (ZoneFile.ze_array e) d) entries acc
    = acc ++ map ZoneLayout.entry_item entries.
Proof.
  induction entries as [| e es IH]; intros acc Hnd Hfresh; simpl.
  { by rewrite app_nil_r. }
  apply NoDup_cons in Hnd as [Hne Hnd].
  rewrite od_set_fresh by (apply Hfresh; simpl; left).
  rewrite IH; [by rewrite <- app_assoc | done |].
  intros k Hk. rewrite od_keys_app. simpl.
  intros [Hin | Hin]%elem_of_app.
  - eapply Hfresh; [| done]. simpl. by right.
  - apply list_elem_of_singleton in Hin. simpl in Hin. subst k. by apply Hne.
Qed.

End Reading.

Lemma when_stdout_run (c : bool) (s : text) (w : World) :
  exists w', when c (stdout_write s) w = (Ok tt, w')
             /\ handles w' = handles w /\ fs w' = fs w.
Proof. destruct c; simpl; eauto. Qed.

Lemma open_arg_run (f : FileArg) (txt : text) (w : World) :
  ZoneFile.file_text w f = Some txt ->
  exists h w',
    match f with FileObj h => ret h | Filename p => open p end w = (Ok h, w')
    /\ handles w' !! h = Some txt.
Proof.
  destruct f as [path | h]; simpl; intros Hf.
  - unfold open. destruct (fs w !! path) as [raw |]; [| done].
    injection Hf as <-. do 2 eexists. split; [done |]. simpl.
    by apply list_lookup_middle.
  - exists h, w. done.
Qed.

Lemma shape_run (model : Model) (nrow ncol : option Z) (w : World) :
  exists w',
    match nrow, ncol with
    | None, None =>
        d ← model_dims model;
        let '(nrow0, ncol0, _, _) := d in ret (Some nrow0, Some ncol0)
    | _, _ => ret (nrow, ncol)
    end w = (Ok (ZoneFile.shape_for model nrow ncol), w')
    /\ handles w' = handles w.
Proof.
  unfold ZoneFile.shape_for.
  destruct nrow, ncol; try (by exists w).
  rewrite bind_run, model_dims_run.
  destruct (nrow_ncol_nlay_nper model) as [[[r0 c0] l0] p0]. eauto.
Qed.

(** C2.  Take a zone file made of comment lines, a line whose first word
    reads as the number of entries, and that many entries, each a line that
    starts with the name of the zone followed by an array that [Util2d.load]
    reads, the stored names being pairwise distinct.  Then [load] returns a
    package whose [zone_dict] holds exactly those entries, keyed by the
    stored names in the order of the file, and whose [nzn] is their number;
    the package is added to the model. *)
Theorem load_reads_zone_entries
    {py : PyText.Builtins}
    (Package_init : Model -> string -> string -> Z -> Obj)
    (Util2d_load : text -> Model -> option Z * option Z -> dtype ->
                   text -> option ExtUnitDict -> (Util2d + exn) * text)
    (Package_init_parent : forall model extension name unitnumber,
        Package_init model extension name unitnumber !! "parent"
        = Some (VModel model))
    f model nrow ncol eud w comments line1 entries rest :
  ZoneFile.file_text w f
    = Some (ZoneLayout.zone_file_text comments line1 entries rest) ->
  Forall ZoneLayout.comment_line comments ->
  ZoneLayout.count_line line1 (Z.of_nat (length entries)) ->
  Forall (ZoneLayout.entry_ok Util2d_load model
            (ZoneFile.shape_for model nrow ncol) eud) entries ->
  NoDup (map ZoneLayout.entry_key entries) ->
  exists zon w',
    ModflowZon.load Package_init Util2d_load f model nrow ncol eud w
    = (Ok zon, w')
    /\ zon !! "zone_dict" = Some (VDict (map ZoneLayout.entry_item entries))
    /\ zon !! "nzn" = Some (VInt (Z.of_nat (length entries)))
    /\ last (calls w') = Some (add_package model zon).
Proof.
  intros Hf Hcom (Hl1 & Hh1 & tok & Htok & Hint) Hent Hnd.
  unfold ModflowZon.load.
  destruct (when_stdout_run (verbose model)
              (u "loading zone package file..." ++ newline) w)
    as (w1 & E1 & Hw1 & Hfs1).
  rewrite (bind_ok _ _ _ _ _ E1).
  assert (Hf1 : ZoneFile.file_text w1 f
                = Some (ZoneLayout.zone_file_text comments line1 entries rest)).
  { destruct f; simpl in *; congruence. }
  destruct (open_arg_run _ _ _ Hf1) as (h & w2 & E2 & Hw2).
  rewrite (bind_ok _ _ _ _ _ E2).
  unfold ZoneLayout.zone_file_text in Hw2.
  rewrite (bind_ok _ _ _ _ _ (header_run _ _ _ _ _ Hcom Hl1 Hh1 Hw2)).
  unfold ZoneFile.first_token in Htok.
  destruct (PyText.split (PyText.strip line1)) as [| t0 ts] eqn:Et; [done |].
  injection Htok as ->.
  rewrite bind_run. simpl. rewrite bind_run. unfold py_int. rewrite Hint. simpl.
  destruct (shape_run model nrow ncol (set_handle h
              (ZoneFile.concat (map ZoneFile.entry_text entries) ++ rest) w2))
    as (w3 & E3 & Hw3).
  rewrite (bind_ok _ _ _ _ _ E3).
  rewrite Nat2Z.id.
  destruct (read_zones_run Util2d_load h model
              (ZoneFile.shape_for model nrow ncol) eud entries [] w3 rest Hent)
    as (w4 & E4 & Hw4).
  { rewrite Hw3. by eapply set_handle_lookup. }
  rewrite (bind_ok _ _ _ _ _ E4).
  rewrite fold_od_set_fresh; [| done | intros k _; apply not_elem_of_nil].
  rewrite app_nil_l. unfold ModflowZon.new.
  destruct (init_run Package_init Package_init_parent model
              (Some (map ZoneLayout.entry_item entries)) "zon" 1001 w4)
    as (self & E5 & Hnzn & Hzd).
  exists self. eexists. split; [exact E5 |]. split; [done |].
  split; [| simpl; by rewrite last_snoc].
  rewrite Hnzn. unfold od_len. by rewrite length_map.
Qed.

Lemma init_ok_attrs
    (Package_init : Model -> string -> string -> Z -> Obj)
    model zd extension unitnumber w zon w' :
  ModflowZon.__init__ Package_init model (Some zd) extension unitnumber w
    = (Ok zon, w') ->
  zon !! "zone_dict" = Some (VDict zd) /\ zon !! "nzn" = Some (VInt (od_len zd)).
Proof.
  unfold ModflowZon.__init__. rewrite bind_run.
  match goal with |- context [getattr ?o "parent" w] =>
    destruct (getattr o "parent" w) as [[v | e |] w1] end; try done.
  destruct v; try done. intros [= <- <-]. by simplify_map_eq.
Qed.

Lemma load_never_out_of_fuel
    {py : PyText.Builtins}
    (Package_init : Model -> string -> string -> Z -> Obj)
    (Util2d_load : text -> Model -> option Z * option Z -> dtype ->
                   text -> option ExtUnitDict -> (Util2d + exn) * text)
    f model nrow ncol eud w :
  (ModflowZon.load Package_init Util2d_load f model nrow ncol eud w).1
  <> OutOfFuel.
Proof.
  destruct (ModflowZon.load _ _ _ _ _ _ _ w) as [r w'] eqn:E.
  destruct (load_calls _ _ _ _ _ _ _ _ _ _ E)
    as (? & ? & ? & _ & _ & _ & [(e & -> & _) | (s & m & -> & _)]); done.
Qed.
(* ===================================================================== *)
(** ** Properties of the river package definition *)
(* ===================================================================== *)

(** C6.  Every entry of [ModflowGwfriv.dfn] names exactly one block, and
    that block is [options], [dimensions] or [period].  The table has one
    entry named [periodrecarray]; it is in block [period] and its shape is
    [(maxbound)].  The table has one entry named [maxbound]; it is of type
    [integer] and it is the one entry of block [dimensions]. *)
Theorem dfn_blocks_and_periodrecarray_shape :
  Forall (fun e => exists b, ModflowGwfriv.attr "block" e = [[b]]
                             /\ b ∈ ModflowGwfriv.blocks)
         ModflowGwfriv.dfn
  /\ (exists e, ModflowGwfriv.entries_named "periodrecarray" = [e]
                /\ ModflowGwfriv.attr "block" e = [["period"]]
                /\ ModflowGwfriv.attr "shape" e = [["(maxbound)"]])
  /\ (exists e, ModflowGwfriv.entries_named "maxbound" = [e]
                /\ ModflowGwfriv.entries_of_block "dimensions" = [e]
                /\ ModflowGwfriv.attr "type" e = [["integer"]]).
Proof.
  split; [| split].
  - unfold ModflowGwfriv.dfn.
    repeat (apply Forall_cons; split;
            [ eexists; split; [ vm_compute; reflexivity | unfold ModflowGwfriv.blocks; set_solver ] | ]).
    constructor.
  - eexists. split; [vm_compute; reflexivity |]. split; vm_compute; reflexivity.
  - eexists. split; [vm_compute; reflexivity |]. split; vm_compute; reflexivity.
Qed.

(* ===================================================================== *)
(** ** Properties of the zone-budget tests *)
(* ===================================================================== *)

Lemma check_spec (recarray : Type) (shape0 : recarray -> Z)
    (recs : recarray) (log : list ZonbudTest.Action) :
  ZonbudTest.check recarray shape0 recs log =
    if decide (shape0 recs = 0)
    then (Raise (Exception "No records returned."), log)
    else (Ok tt, log).
Proof.
  unfold ZonbudTest.check.
  destruct (Z.eqb_spec (shape0 recs) 0); case_decide; done.
Qed.

(** C3, as the code has it.  The check after a query raises
    [Exception('No records returned.')] when the record array has no row and
    does nothing otherwise.  A test function raises that exception exactly
    when one of its checked queries returns no row: these are the two
    queries of [test_zonbud_budget], the four of
    [test_zonbud_mass_balance] and the first of [test_zonbud_aliases]; the
    two tests that write csv files have none.  The exception is raised
    right after the first such query, which is then the last thing the test
    did; a test raises nothing else and does nothing twice.  The second
    query of [test_zonbud_aliases] is not checked: when the first query
    returns rows, the test makes it and passes, whatever it returns. *)
Theorem zonbud_tests_raise_iff_checked_query_empty
    (recarray : Type) (shape0 : recarray -> Z)
    (zbud : ZonbudTest.Query -> recarray) :
  let rows q := shape0 (zbud q) in
  let failed := Raise (Exception "No records returned.") in
  (forall recs log,
      ZonbudTest.check recarray shape0 recs log =
        if decide (shape0 recs = 0) then (failed, log) else (Ok tt, log))
  /\ Forall2 (fun (t : ZonbudTest.T unit) (qs : list ZonbudTest.Query) =>
       let r := (t []).1 in
       let log := (t []).2 in
       (r = failed <-> Exists (fun q => rows q = 0) qs)
       /\ (r = Ok tt <-> Forall (fun q => rows q <> 0) qs)
       /\ (r = failed ->
           exists q, last log = Some (ZonbudTest.AQuery q)
                     /\ last (ZonbudMain.until_empty rows qs) = Some q
                     /\ rows q = 0)
       /\ NoDup log)
     (ZonbudTest.tests recarray shape0 zbud) ZonbudMain.checked_queries
  /\ (rows ZonbudMain.q_all <> 0 ->
      let run := ZonbudTest.test_zonbud_aliases recarray shape0 zbud [] in
      run.1 = Ok tt /\ ZonbudTest.AQuery ZonbudMain.q_alias ∈ run.2).
Proof.
  intros rows failed. subst rows failed.
  split; [apply check_spec |].
  unfold ZonbudTest.tests, ZonbudMain.checked_queries,
    ZonbudMain.qs_mass_balance, ZonbudMain.q_all, ZonbudMain.q_budget,
    ZonbudMain.q_alias.
  split.
  - apply List.Forall2_cons;
      [| apply List.Forall2_cons;
         [| apply List.Forall2_cons;
            [| apply List.Forall2_cons;
               [| apply List.Forall2_cons; [| apply List.Forall2_nil]]]]].
    all: unfold ZonbudTest.test_zonbud_write_csv_kstpkper,
           ZonbudTest.test_zonbud_write_csv_totim,
           ZonbudTest.test_zonbud_budget, ZonbudTest.test_zonbud_mass_balance,
           ZonbudTest.test_zonbud_aliases.
    all: unfold ZonbudTest.query, ZonbudTest.act, ZonbudTest.throw,
           mbind, ZonbudTest.T_bind, mret, ZonbudTest.T_ret; simpl.
    all: rewrite ?Exists_cons, ?Exists_nil, ?Forall_cons, ?Forall_nil.
    all: unfold ZonbudTest.check, ZonbudTest.throw, mret, ZonbudTest.T_ret.
    all: repeat match goal with
                | |- context [?a =? 0] => destruct (Z.eqb_spec a 0)
                end; simpl.
    all: split; [intuition congruence |].
    all: split; [intuition congruence |].
    all: split; [intros Hr; first [discriminate Hr | eexists; repeat split;
                                   first [reflexivity | assumption]] |].
    all: repeat (apply NoDup_cons; split; [fresh_in_log |]); apply NoDup_nil_2.
  - intros Hrows.
    unfold ZonbudTest.test_zonbud_aliases, ZonbudTest.query, ZonbudTest.act,
      ZonbudTest.throw, mbind, ZonbudTest.T_bind, mret, ZonbudTest.T_ret; simpl.
    rewrite check_spec. case_decide; [done |]. simpl.
    split; [reflexivity |].
    repeat (apply elem_of_cons; first [left; reflexivity | right]).
Qed.

(** C3 as stated fails: with a budget that has rows for every query but the
    second [get_records] of [test_zonbud_aliases], that test makes the
    query, gets a record array with no row, and ends without exception. *)
Lemma zonbud_aliases_passes_on_empty_query :
  let run := ZonbudTest.test_zonbud_aliases Z id ZonbudMain.rows_but_alias []
  in
  run.1 = Ok tt
  /\ last (ZonbudMain.queries_made run.2) = Some ZonbudMain.q_alias
  /\ ZonbudTest.no_rows Z id ZonbudMain.rows_but_alias ZonbudMain.q_alias.
Proof. repeat split. Qed.

(* ===================================================================== *)
(** ** Properties of the ZONE package *)
(* ===================================================================== *)

Lemma Package_init_demo_parent model extension name unitnumber :
  Package_init_demo model extension name unitnumber !! "parent"
  = Some (VModel model).
Proof. reflexivity. Qed.

Lemma Package_init_demo_zone_dict model extension name unitnumber :
  Package_init_demo model extension name unitnumber !! "zone_dict" = None.
Proof. reflexivity. Qed.

(** The file [test.zon] of [zone_world], laid out. *)
Example zone_text_layout :
  zone_text =
    ZoneLayout.zone_file_text [lines ["# zones"]] (lines ["2"]) zone_entries [].
Proof. reflexivity. Qed.

Lemma load_reads_zone_entries_witness :
  exists zon w',
    load_demo (Filename "test.zon") quiet_model None None None zone_world
    = (Ok zon, w')
    /\ zon !! "zone_dict"
       = Some (VDict [(u "zonealphab", mkUtil2d [[1; 1; 2]] None);
                      (u "south", mkUtil2d [[3; 3; 3]] None)])
    /\ zon !! "nzn" = Some (VInt 2)
    /\ last (calls w') = Some (add_package quiet_model zon).
Proof.
  apply (load_reads_zone_entries (py := py_demo) Package_init_demo
           Util2d_load_demo (fun _ _ _ _ => eq_refl) (Filename "test.zon")
           quiet_model None None None zone_world
           [lines ["# zones"]] (lines ["2"]) zone_entries []).
  - reflexivity.
  - repeat constructor.
  - split; [reflexivity |]. split; [reflexivity |].
    exists (u "2"). split; reflexivity.
  - repeat (apply Forall_cons; split);
      [ split; [reflexivity | split; [reflexivity | intros rest; reflexivity]] ..
      | apply Forall_nil_2 ].
  - vm_compute. repeat (apply NoDup_cons; split; [fresh_in_log |]).
    apply NoDup_nil_2.
Defined.

(** The same file with the line ends of other systems gives the same
    zones. *)
Example load_crlf_ex :
  Forall (fun txt =>
    returned (load_demo (Filename "t.zon") quiet_model None None None
                        (file_world "t.zon" txt)) !! "zone_dict"
    = Some (VDict [(u "zonealphab", mkUtil2d [[1; 1; 2]] None);
                   (u "south", mkUtil2d [[3; 3; 3]] None)]))
    [zone_text; crlf_text; cr_text].
Proof. repeat constructor. Qed.

(** C5.  When [load] raises, the calls it has made hold no [add_package]:
    no package has been added to the model, and none is returned. *)
Theorem load_raise_adds_no_package
    {py : PyText.Builtins}
    (Package_init : Model -> string -> string -> Z -> Obj)
    (Util2d_load : text -> Model -> option Z * option Z -> dtype ->
                   text -> option ExtUnitDict -> (Util2d + exn) * text)
    f model nrow ncol eud w e w' :
  ModflowZon.load Package_init Util2d_load f model nrow ncol eud w
    = (Raise e, w') ->
  exists new, calls w' = calls w ++ new
              /\ Forall (fun c => ~ is_add_package c) new.
Proof.
  intros H. destruct (load_calls _ _ _ _ _ _ _ _ _ _ H)
    as (dims & zones & pkg & Hc & Hd & Hz & [(e' & _ & ->) | (s & m & Hr & _)]);
    [| done].
  exists (dims ++ zones). rewrite app_nil_r in Hc. split; [by rewrite Hc |].
  apply Forall_app. split.
  - destruct Hd as [-> | (_ & _ & ->)]; [constructor |].
    constructor; [| constructor]. by intros (m & p & Hm).
  - eapply Forall_impl; [exact Hz |].
    intros c [(name & ->) | (key & ->)] (m & p & Hm); done.
Qed.

Lemma load_raise_adds_no_package_witness :
  load_demo (Filename "bad.zon") quiet_model None None None bad_world
  = (Raise ValueError,
     mkWorld (fs bad_world) [[]] [] [])
  /\ exists new, [] = calls bad_world ++ new
                 /\ Forall (fun c => ~ is_add_package c) new.
Proof.
  split; [vm_compute; reflexivity |].
  apply (load_raise_adds_no_package (py := py_demo) Package_init_demo
           Util2d_load_demo (Filename "bad.zon") quiet_model None None None
           bad_world ValueError (mkWorld (fs bad_world) [[]] [] [])).
  vm_compute. reflexivity.
Defined.

(** C8.  [load] asks the model for its dimensions only when neither [nrow]
    nor [ncol] is passed.  When one of them is passed, every array is
    loaded with the shape [(nrow, ncol)] as passed, so with [None] for the
    one that is not; when none is, with the model's numbers of rows and
    columns. *)
Theorem load_dimension_lookup
    {py : PyText.Builtins}
    (Package_init : Model -> string -> string -> Z -> Obj)
    (Util2d_load : text -> Model -> option Z * option Z -> dtype ->
                   text -> option ExtUnitDict -> (Util2d + exn) * text)
    f model nrow ncol eud w :
  let w' := (ModflowZon.load Package_init Util2d_load f model nrow ncol eud w).2 in
  exists new,
    calls w' = calls w ++ new
    /\ (forall m, get_nrow_ncol_nlay_nper m ∈ new ->
                  nrow = None /\ ncol = None)
    /\ (forall m shape dt name,
          Util2d_load_call m shape dt name ∈ new ->
          shape = match nrow, ncol with
                  | None, None =>
                      (Some (nrow_ncol_nlay_nper model).1.1.1,
                       Some (nrow_ncol_nlay_nper model).1.1.2)
                  | _, _ => (nrow, ncol)
                  end).
Proof.
  intros w'. subst w'.
  destruct (ModflowZon.load _ _ _ _ _ _ _ w) as [r w'] eqn:E. simpl.
  destruct (load_calls _ _ _ _ _ _ _ _ _ _ E)
    as (dims & zones & pkg & Hc & Hd & Hz & Hp).
  exists (dims ++ zones ++ pkg). split; [done |]. split.
  - intros m [Hin | [Hin | Hin]%elem_of_app]%elem_of_app.
    + destruct Hd as [-> | (-> & -> & _)]; [| done]. by apply elem_of_nil in Hin.
    + rewrite Forall_forall in Hz.
      destruct (Hz _ Hin) as [(name & Hn) | (key & Hn)]; done.
    + destruct Hp as [(e & _ & ->) | (s & m' & _ & ->)].
      * by apply elem_of_nil in Hin.
      * by apply list_elem_of_singleton in Hin.
  - intros m shape dt name [Hin | [Hin | Hin]%elem_of_app]%elem_of_app.
    + destruct Hd as [-> | (_ & _ & ->)]; [by apply elem_of_nil in Hin |].
      by apply list_elem_of_singleton in Hin.
    + rewrite Forall_forall in Hz.
      destruct (Hz _ Hin) as [(name' & Hn) | (key & Hn)]; [| done].
      injection Hn as _ -> _ _. unfold ZoneFile.shape_for.
      destruct nrow, ncol; try done.
      by destruct (nrow_ncol_nlay_nper model) as [[[r0 c0] l0] p0].
    + destruct Hp as [(e & _ & ->) | (s & m' & _ & ->)].
      * by apply elem_of_nil in Hin.
      * by apply list_elem_of_singleton in Hin.
Qed.

(** With [nrow=2] alone, the two arrays of [test.zon] are loaded with the
    shape [(2, None)] and the model is not asked. *)
Example load_partial_shape_ex :
  calls (load_demo (Filename "test.zon") quiet_model (Some 2) None None
                   zone_world).2
  = [Util2d_load_call quiet_model (Some 2, None) np_int (u "zonealphab");
     Util2d_load_call quiet_model (Some 2, None) np_int (u "south");
     add_package quiet_model
       (returned (load_demo (Filename "test.zon") quiet_model (Some 2) None
                            None zone_world))].
Proof. vm_compute. reflexivity. Qed.

Example load_model_shape_ex :
  take 2 (calls (load_demo (Filename "test.zon") quiet_model None None None
                           zone_world).2)
  = [get_nrow_ncol_nlay_nper quiet_model;
     Util2d_load_call quiet_model (Some 2, Some 3) np_int (u "zonealphab")].
Proof. vm_compute. reflexivity. Qed.

(** C9.  With an ancestor's constructor that sets [parent] to the model and
    does not set [zone_dict]: the constructor returns the package and adds
    it to the model by one call of [add_package]; when a [zone_dict] is
    passed, [nzn] is its length and the attribute [zone_dict] holds it; when
    none is passed, [nzn] is 0 and there is no attribute [zone_dict], so
    that reading it raises [AttributeError]. *)
Theorem init_nzn_zone_dict_add_package
    (Package_init : Model -> string -> string -> Z -> Obj)
    (Package_init_parent : forall model extension name unitnumber,
        Package_init model extension name unitnumber !! "parent"
        = Some (VModel model))
    (Package_init_zone_dict : forall model extension name unitnumber,
        Package_init model extension name unitnumber !! "zone_dict" = None)
    model zone_dict extension unitnumber w :
  exists self,
    ModflowZon.__init__ Package_init model zone_dict extension unitnumber w
    = (Ok self,
       mkWorld (fs w) (handles w) (stdout w)
               (calls w ++ [add_package model self]))
    /\ match zone_dict with
       | Some d =>
           self !! "nzn" = Some (VInt (Z.of_nat (length d)))
           /\ self !! "zone_dict" = Some (VDict d)
       | None =>
           self !! "nzn" = Some (VInt 0)
           /\ self !! "zone_dict" = None
           /\ forall w1, getattr self "zone_dict" w1
                         = (Raise (AttributeError "zone_dict"), w1)
       end.
Proof.
  destruct (init_run Package_init Package_init_parent model zone_dict
              extension unitnumber w) as (self & E & Hnzn & Hzd).
  exists self. split; [exact E |].
  destruct zone_dict as [d |]; [done |].
  rewrite Package_init_zone_dict in Hzd.
  split; [done |]. split; [done |].
  intros w1. unfold getattr. by rewrite Hzd.
Qed.

Lemma init_nzn_zone_dict_add_package_witness :
  (exists self,
     ModflowZon.__init__ Package_init_demo quiet_model (Some one_zone)
                         "zon" 1001 world0
     = (Ok self, mkWorld ∅ [] [] [add_package quiet_model self])
     /\ self !! "nzn" = Some (VInt 1)
     /\ self !! "zone_dict" = Some (VDict one_zone))
  /\ (exists self,
     ModflowZon.__init__ Package_init_demo quiet_model None "zon" 1001 world0
     = (Ok self, mkWorld ∅ [] [] [add_package quiet_model self])
     /\ self !! "nzn" = Some (VInt 0)
     /\ self !! "zone_dict" = None
     /\ forall w1, getattr self "zone_dict" w1
                   = (Raise (AttributeError "zone_dict"), w1)).
Proof.
  split.
  - apply (init_nzn_zone_dict_add_package Package_init_demo
             (fun _ _ _ _ => eq_refl) (fun _ _ _ _ => eq_refl)
             quiet_model (Some one_zone) "zon" 1001 world0).
  - apply (init_nzn_zone_dict_add_package Package_init_demo
             (fun _ _ _ _ => eq_refl) (fun _ _ _ _ => eq_refl)
             quiet_model None "zon" 1001 world0).
Defined.

(** C4, as the code has it.  [write_file] returns [None] and changes
    nothing: no file is created and none is changed. *)
Theorem write_file_changes_nothing (self : Obj) (w : World) :
  ModflowZon.write_file self w = (Ok tt, w)
  /\ ~ writes_a_file w (ModflowZon.write_file self w).2.
Proof.
  split; [reflexivity |]. simpl. intros (path & txt & H1 & H2). done.
Qed.

(** C4 as stated fails: after [write_file] on a package with one zone, in a
    world without files, there is still no file. *)
Lemma write_file_writes_no_file :
  let pkg := returned (new_demo quiet_model (Some one_zone) world0) in
  let w := (new_demo quiet_model (Some one_zone) world0).2 in
  pkg !! "zone_dict" = Some (VDict one_zone)
  /\ fs (ModflowZon.write_file pkg w).2 = ∅
  /\ ~ writes_a_file w (ModflowZon.write_file pkg w).2.
Proof.
  intros pkg w.
  assert (Hfs : fs (ModflowZon.write_file pkg w).2 = ∅) by reflexivity.
  split; [vm_compute; reflexivity |]. split; [exact Hfs |].
  intros (path & txt & H1 & H2). rewrite Hfs in H1.
  by rewrite lookup_empty in H1.
Qed.

Lemma write_file_then_load_is_load'
    {py : PyText.Builtins}
    (Package_init : Model -> string -> string -> Z -> Obj)
    (Util2d_load : text -> Model -> option Z * option Z -> dtype ->
                   text -> option ExtUnitDict -> (Util2d + exn) * text)
    (self : Obj) f model nrow ncol eud (w : World) :
  (ModflowZon.write_file self;;
   ModflowZon.load Package_init Util2d_load f model nrow ncol eud) w
  = ModflowZon.load Package_init Util2d_load f model nrow ncol eud w.
Proof. reflexivity. Qed.

(** C1, as the code has it.  [write_file] then [load] is [load] alone: what
    is read is what the file held before, and the [zone_dict] of the
    package has no part in it. *)
Theorem write_file_then_load_is_load
    {py : PyText.Builtins}
    (Package_init : Model -> string -> string -> Z -> Obj)
    (Util2d_load : text -> Model -> option Z * option Z -> dtype ->
                   text -> option ExtUnitDict -> (Util2d + exn) * text)
    (self : Obj) f model nrow ncol eud (w : World) :
  (ModflowZon.write_file self;;
   ModflowZon.load Package_init Util2d_load f model nrow ncol eud) w
  = ModflowZon.load Package_init Util2d_load f model nrow ncol eud w.
Proof. reflexivity. Qed.

(** C1 as stated fails: a package with one zone, written with [write_file]
    in a world without files, cannot be read back, whatever the name of its
    file: [load] raises [IOError]. *)
Lemma write_file_then_load_raises :
  let pkg := returned (new_demo quiet_model (Some one_zone) world0) in
  let w := (new_demo quiet_model (Some one_zone) world0).2 in
  pkg !! "zone_dict" = Some (VDict one_zone)
  /\ one_zone <> []
  /\ forall path,
       ((ModflowZon.write_file pkg;;
         load_demo (Filename path) quiet_model None None None) w).1
       = Raise IOError.
Proof.
  intros pkg w. split; [vm_compute; reflexivity |]. split; [done |].
  intros path. unfold load_demo. rewrite write_file_then_load_is_load'.
  unfold ModflowZon.load. rewrite bind_run. simpl.
  rewrite bind_run. unfold open.
  assert (Hfs : fs w = ∅) by reflexivity.
  rewrite Hfs, lookup_empty. reflexivity.
Qed.

(* ===================================================================== *)
(** ** More on the ZONE package: what a run reads, writes and calls *)
(* ===================================================================== *)

Lemma world_eq (w1 w2 : World) :
  fs w1 = fs w2 -> handles w1 = handles w2 -> stdout w1 = stdout w2 ->
  calls w1 = calls w2 -> w1 = w2.
Proof. destruct w1, w2; simpl; by intros -> -> -> ->. Qed.

Section Trace.
Context {py : PyText.Builtins}.
Variable Package_init : Model -> string -> string -> Z -> Obj.
Variable Util2d_load :
  text -> Model -> option Z * option Z -> dtype -> text ->
  option ExtUnitDict -> (Util2d + exn) * text.

(** The loop over the zones, after it has read the entries at the head of
    the text, goes on from there for the turns that are left. *)
Lemma read_zones_entries h model shape eud (n : nat) :
  forall entries acc w rest,
    Forall (ZoneLayout.entry_ok Util2d_load model shape eud) entries ->
    handles w !! h
      = Some (ZoneFile.concat (map ZoneFile.entry_text entries) ++ rest) ->
    ModflowZon.read_zones Util2d_load (length entries + n) h model shape eud
                          acc w
    = ModflowZon.read_zones Util2d_load n h model shape eud
        (fold_left ZoneTrace.add_zone entries acc)
        (ZoneTrace.after_entries h model shape entries rest w).
Proof.
  induction entries as [| e es IH]; intros acc w rest HF Hh.
  { change (ZoneFile.concat (map ZoneFile.entry_text []) ++ rest)
      with rest in Hh.
    simpl. f_equal. unfold ZoneTrace.after_entries.
    apply world_eq; simpl; rewrite ?app_nil_r; try done.
    - symmetry. by apply list_insert_id.
    - destruct (verbose model); simpl; by rewrite app_nil_r. }
  apply Forall_cons in HF as [(Hl & Htok & Hread) HF].
  simpl in Hh. unfold ZoneFile.entry_text in Hh at 1.
  rewrite !text_app_assoc in Hh.
  change (length (e :: es) + n)%nat with (S (length es + n)).
  cbn [ModflowZon.read_zones].
  rewrite (bind_ok _ _ _ _ _ (readline_run _ _ _ _ Hh Hl)).
  unfold ZoneFile.first_token in Htok.
  destruct (PyText.split (PyText.strip (ZoneFile.ze_line e))) as [| t0 ts] eqn:Et;
    [done |]. injection Htok as ->.
  rewrite bind_run. cbn [list_first ret]. cbv beta iota.
  assert (Hlt : (h < length (handles w))%nat) by (by eapply lookup_lt_Some).
  rewrite bind_run.
  unfold when, stdout_write, ModflowZon.Util2d_load_on, call,
    ModflowZon.Util2d_read, set_handle.
  destruct (verbose model) eqn:Hv; cbn [ret]; cbv beta iota;
    rewrite !bind_run; cbn [fs handles stdout calls];
    rewrite list_lookup_insert_eq by done; rewrite Hread;
    rewrite bind_run;
    (destruct (locat (ZoneFile.ze_array e)) as [u |] eqn:Hloc; cbn [ret];
     cbv beta iota; cbn [fs handles stdout calls];
     (rewrite IH with (rest := rest);
      [| done | cbn [handles]; rewrite list_lookup_insert_eq;
                [done | by rewrite !length_insert]]);
     f_equal; unfold ZoneTrace.after_entries; cbn [fs handles stdout calls];
     apply world_eq; cbn [fs handles stdout calls]; rewrite ?Hv).
  all: try done.
  all: try (by rewrite !list_insert_insert_eq).
  all: try (cbn [map]; by rewrite <- app_assoc).
  all: cbn [flat_map];
    change (ZoneTrace.entry_calls model shape e)
      with (Util2d_load_call model shape np_int (ZoneLayout.entry_key e)
            :: match locat (ZoneFile.ze_array e) with
               | Some u => [add_pop_key_list model u]
               | None => []
               end);
    rewrite Hloc; by rewrite <- !app_assoc.
Qed.

(** [load], once the header and dataset 1 are read, is the loop over the
    zones followed by the constructor. *)
Lemma load_header f model nrow ncol eud w comments line1 nzn body :
  ZoneFile.file_text w f
    = Some (ZoneFile.concat comments ++ line1 ++ body) ->
  Forall ZoneLayout.comment_line comments ->
  ZoneLayout.count_line line1 nzn ->
  ModflowZon.load Package_init Util2d_load f model nrow ncol eud w
  = (ModflowZon.read_zones Util2d_load (Z.to_nat nzn)
       (ZoneTrace.handle_of f w) model (ZoneFile.shape_for model nrow ncol)
       eud []
     ≫= fun zone_dict => ModflowZon.new Package_init model (Some zone_dict))
      (ZoneTrace.after_header f model nrow ncol body w).
Proof.
  intros Hf Hcom (Hl1 & Hh1 & tok & Htok & Hint).
  unfold ModflowZon.load.
  set (w1 := mkWorld (fs w) (handles w)
               (stdout w ++ (if verbose model then [ZoneTrace.loading_msg]
                             else [])) (calls w)).
  assert (E1 : when (verbose model)
                 (stdout_write (u "loading zone package file..." ++ newline)) w
               = (Ok tt, w1)).
  { unfold w1, when, stdout_write. destruct (verbose model); [done |].
    unfold ret. f_equal. apply world_eq; simpl; by rewrite ?app_nil_r. }
  rewrite (bind_ok _ _ _ _ _ E1).
  set (h := ZoneTrace.handle_of f w).
  set (w2 := mkWorld (fs w) (ZoneTrace.opened f w) (stdout w1) (calls w)).
  assert (E2 : match f with
               | FileObj h => ret h
               | Filename filename => open filename
               end w1 = (Ok h, w2)).
  { unfold h, w2. destruct f as [path | h0]; simpl in *.
    - unfold open. simpl. by destruct (fs w !! path).
    - done. }
  rewrite (bind_ok _ _ _ _ _ E2).
  assert (Hw2 : handles w2 !! h
                = Some (ZoneFile.concat comments ++ line1 ++ body)).
  { unfold h, w2. destruct f as [path | h0]; simpl in *; [| done].
    destruct (fs w !! path) as [raw |]; [| done]. injection Hf as <-.
    simpl. by apply list_lookup_middle. }
  rewrite (bind_ok _ _ _ _ _ (header_run _ _ _ _ _ Hcom Hl1 Hh1 Hw2)).
  unfold ZoneFile.first_token in Htok.
  destruct (PyText.split (PyText.strip line1)) as [| t0 ts] eqn:Et; [done |].
  injection Htok as ->.
  rewrite bind_run. cbn [list_first ret]. cbv beta iota.
  rewrite bind_run. unfold py_int. rewrite Hint. cbn [ret]. cbv beta iota.
  rewrite bind_run.
  assert (E3 : match nrow, ncol with
     | None, None =>
         d ← model_dims model;
         let '(nrow0, ncol0, _, _) := d in ret (Some nrow0, Some ncol0)
     | _, _ => ret (nrow, ncol)
     end (set_handle h body w2)
     = (Ok (ZoneFile.shape_for model nrow ncol),
        ZoneTrace.after_header f model nrow ncol body w)).
  { unfold ZoneFile.shape_for, ZoneTrace.after_header, ZoneTrace.dims_calls.
    fold h.
    destruct nrow as [r0 |], ncol as [c0 |]; unfold ret;
      try (f_equal; apply world_eq; simpl; by rewrite ?app_nil_r).
    rewrite bind_run, model_dims_run.
    by destruct (nrow_ncol_nlay_nper model) as [[[r0 c0] l0] p0]. }
  rewrite E3. reflexivity.
Qed.

End Trace.

(** *** The dictionary of zones *)

Lemma od_get_set (k k' : text) (v : Util2d) (d : OrderedDict) :
  od_get k' (od_set k v d) = if decide (k = k') then Some v else od_get k' d.
Proof.
  induction d as [| [k0 v0] d IH]; cbn [od_get od_set].
  - destruct (text_eqb_spec k k'); case_decide; done.
  - destruct (text_eqb_spec k0 k) as [-> | Hne]; cbn [od_get od_set].
    + destruct (text_eqb_spec k k'); case_decide; done.
    + destruct (text_eqb_spec k0 k') as [-> | Hne'].
      * case_decide; [congruence | done].
      * apply IH.
Qed.

Lemma od_set_elem (k : text) (v : Util2d) (d : OrderedDict) (x : text) :
  x ∈ od_keys (od_set k v d) <-> x = k \/ x ∈ od_keys d.
Proof.
  unfold od_keys. induction d as [| [k0 v0] d IH]; simpl.
  - rewrite list_elem_of_singleton. split; [by left | intros [H | H]; [done |]].
    by apply elem_of_nil in H.
  - destruct (text_eqb_spec k0 k) as [-> | Hne]; simpl.
    + rewrite elem_of_cons. tauto.
    + rewrite !elem_of_cons, IH. tauto.
Qed.

Lemma od_set_NoDup (k : text) (v : Util2d) (d : OrderedDict) :
  NoDup (od_keys d) -> NoDup (od_keys (od_set k v d)).
Proof.
  induction d as [| [k0 v0] d IH]; simpl.
  - intros _. apply NoDup_singleton.
  - intros [Hk0 Hd]%NoDup_cons.
    destruct (text_eqb_spec k0 k) as [-> | Hne]; simpl.
    + by apply NoDup_cons.
    + apply NoDup_cons. split; [| by apply IH].
      fold (od_keys (od_set k v d)). rewrite od_set_elem.
      intros [-> | H]; done.
Qed.

Lemma add_zones_NoDup {py : PyText.Builtins} (es : list ZoneFile.entry) :
  forall acc, NoDup (od_keys acc) ->
              NoDup (od_keys (fold_left ZoneTrace.add_zone es acc)).
Proof.
  induction es as [| e es IH]; intros acc Hacc; simpl; [done |].
  apply IH. by apply od_set_NoDup.
Qed.

Lemma add_zones_elem {py : PyText.Builtins} (es : list ZoneFile.entry) (x : text) :
  forall acc,
    x ∈ od_keys (fold_left ZoneTrace.add_zone es acc)
    <-> x ∈ od_keys acc \/ x ∈ map ZoneLayout.entry_key es.
Proof.
  induction es as [| e es IH]; intros acc; simpl.
  - split; [by left | intros [H | H]; [done | by apply elem_of_nil in H]].
  - rewrite IH. unfold ZoneTrace.add_zone at 1. rewrite od_set_elem.
    rewrite elem_of_cons. tauto.
Qed.

(** A key holds the array of the last entry stored under it. *)
Lemma add_zones_get {py : PyText.Builtins} (es : list ZoneFile.entry) (k : text) :
  forall acc,
    od_get k (fold_left ZoneTrace.add_zone es acc)
    = match last (filter (fun e => ZoneLayout.entry_key e = k) es) with
      | Some e => Some (ZoneFile.ze_array e)
      | None => od_get k acc
      end.
Proof.
  induction es as [| e es IH]; intros acc; simpl; [done |].
  rewrite IH. unfold ZoneTrace.add_zone at 1. rewrite od_get_set.
  rewrite filter_cons.
  destruct (decide (ZoneLayout.entry_key e = k)) as [Hk | Hk].
  - destruct (filter _ es) as [| e' l] eqn:Ef; [done |].
    rewrite last_cons_cons.
    destruct (last (e' :: l)) eqn:El; [done |]. by apply last_None in El.
  - done.
Qed.

Lemma zones_of_length {py : PyText.Builtins} (es : list ZoneFile.entry) :
  (length (ZoneTrace.zones_of es) <= length es)%nat
  /\ (length (ZoneTrace.zones_of es) = length es
      <-> NoDup (map ZoneLayout.entry_key es)).
Proof.
  assert (Hnd : NoDup (od_keys (ZoneTrace.zones_of es)))
    by (apply add_zones_NoDup; constructor).
  assert (Hel : forall x, x ∈ od_keys (ZoneTrace.zones_of es)
                          <-> x ∈ map ZoneLayout.entry_key es).
  { intros x. unfold ZoneTrace.zones_of. rewrite add_zones_elem.
    split; [intros [H | H]; [by apply elem_of_nil in H | done] | by right]. }
  assert (Hlen : length (od_keys (ZoneTrace.zones_of es))
                 = length (ZoneTrace.zones_of es))
    by apply length_map.
  split.
  - rewrite <- Hlen, <- (length_map ZoneLayout.entry_key es).
    apply NoDup_incl_length; [by apply NoDup_ListNoDup |].
    intros x Hx. apply list_elem_of_In, Hel, list_elem_of_In, Hx.
  - split.
    + intros Heq. apply NoDup_ListNoDup.
      apply NoDup_incl_NoDup with (l := od_keys (ZoneTrace.zones_of es));
        [by apply NoDup_ListNoDup | |].
      * rewrite Hlen, Heq. by rewrite length_map.
      * intros x Hx. apply list_elem_of_In, Hel, list_elem_of_In, Hx.
    + intros H. unfold ZoneTrace.zones_of.
      change ZoneTrace.add_zone
        with (fun d e => od_set (ZoneLayout.entry_key e)
                                (ZoneFile.ze_array e) d).
      rewrite fold_od_set_fresh; [| done | intros k _; apply not_elem_of_nil].
      by rewrite app_nil_l, length_map.
Qed.

(** *** Runs on a laid-out file *)

Lemma opened_lookup f w txt :
  ZoneFile.file_text w f = Some txt ->
  ZoneTrace.opened f w !! ZoneTrace.handle_of f w = Some txt.
Proof.
  destruct f as [path | h]; simpl; [| done].
  destruct (fs w !! path) as [raw |]; [| done]. intros [= <-].
  simpl. by apply list_lookup_middle.
Qed.

Lemma load_layout_run
    {py : PyText.Builtins}
    (Package_init : Model -> string -> string -> Z -> Obj)
    (Util2d_load : text -> Model -> option Z * option Z -> dtype ->
                   text -> option ExtUnitDict -> (Util2d + exn) * text)
    (Package_init_parent : forall model extension name unitnumber,
        Package_init model extension name unitnumber !! "parent"
        = Some (VModel model))
    f model nrow ncol eud w comments line1 entries rest :
  ZoneFile.file_text w f
    = Some (ZoneLayout.zone_file_text comments line1 entries rest) ->
  Forall ZoneLayout.comment_line comments ->
  ZoneLayout.count_line line1 (Z.of_nat (length entries)) ->
  Forall (ZoneLayout.entry_ok Util2d_load model
            (ZoneFile.shape_for model nrow ncol) eud) entries ->
  exists zon,
    ModflowZon.load Package_init Util2d_load f model nrow ncol eud w
    = (Ok zon,
       mkWorld (fs w)
         (<[ZoneTrace.handle_of f w := rest]> (ZoneTrace.opened f w))
         (stdout w ++
            if verbose model
            then ZoneTrace.loading_msg
                 :: map (fun e => ZoneTrace.zone_msg (ZoneLayout.entry_key e))
                        entries
            else [])
         (calls w ++ ZoneTrace.dims_calls model nrow ncol
            ++ flat_map (ZoneTrace.entry_calls model
                           (ZoneFile.shape_for model nrow ncol)) entries
            ++ [add_package model zon]))
    /\ zon !! "zone_dict" = Some (VDict (ZoneTrace.zones_of entries))
    /\ zon !! "nzn" = Some (VInt (od_len (ZoneTrace.zones_of entries))).
Proof.
  intros Hf Hcom Hcount Hent. unfold ZoneLayout.zone_file_text in Hf.
  rewrite (load_header Package_init Util2d_load _ _ _ _ _ _ _ _ _ _
             Hf Hcom Hcount).
  rewrite Nat2Z.id, bind_run.
  rewrite <- (Nat.add_0_r (length entries)).
  rewrite (read_zones_entries Util2d_load _ _ _ _ 0 entries [] _ rest Hent).
  2: { simpl. apply list_lookup_insert_eq.
       apply opened_lookup in Hf. by eapply lookup_lt_Some. }
  cbn [ModflowZon.read_zones ret]. unfold ModflowZon.new.
  destruct (init_run Package_init Package_init_parent model
              (Some (fold_left ZoneTrace.add_zone entries [])) "zon" 1001
              (ZoneTrace.after_entries (ZoneTrace.handle_of f w) model
                 (ZoneFile.shape_for model nrow ncol) entries rest
                 (ZoneTrace.after_header f model nrow ncol
                    (ZoneFile.concat (map ZoneFile.entry_text entries)
                     ++ rest) w)))
    as (self & E & Hnzn & Hzd).
  exists self. split; [| done]. rewrite E. f_equal.
  apply world_eq; cbn [fs handles stdout calls ZoneTrace.after_entries
                       ZoneTrace.after_header].
  - done.
  - by rewrite list_insert_insert_eq.
  - destruct (verbose model); rewrite <- ?app_assoc; [done |].
    by rewrite !app_nil_r.
  - by rewrite <- !app_assoc.
Qed.

Lemma ljust_length (n : nat) (s : text) :
  length (PyText.ljust n s) = Nat.max n (length s).
Proof. unfold PyText.ljust. rewrite length_app, length_replicate. lia. Qed.

Lemma zone_msg_length (k : text) :
  length (ZoneTrace.zone_msg k) = (28 + Nat.max 10 (length k))%nat.
Proof.
  unfold ZoneTrace.zone_msg. rewrite !length_app, ljust_length. simpl. lia.
Qed.

(** X1.  On a well-formed zone file, [load] makes these calls and no other,
    in this order: the look-up of the model's dimensions, when neither
    [nrow] nor [ncol] is passed; for every entry, [Util2d.load] with the
    shape, [np.int] and the stored name, then [add_pop_key_list] with the
    array's [locat] when it has one; last, [add_package] with the package
    that [load] returns. *)
Theorem load_calls_in_file_order
    {py : PyText.Builtins}
    (Package_init : Model -> string -> string -> Z -> Obj)
    (Util2d_load : text -> Model -> option Z * option Z -> dtype ->
                   text -> option ExtUnitDict -> (Util2d + exn) * text)
    (Package_init_parent : forall model extension name unitnumber,
        Package_init model extension name unitnumber !! "parent"
        = Some (VModel model))
    f model nrow ncol eud w comments line1 entries rest :
  ZoneFile.file_text w f
    = Some (ZoneLayout.zone_file_text comments line1 entries rest) ->
  Forall ZoneLayout.comment_line comments ->
  ZoneLayout.count_line line1 (Z.of_nat (length entries)) ->
  Forall (ZoneLayout.entry_ok Util2d_load model
            (ZoneFile.shape_for model nrow ncol) eud) entries ->
  exists zon w',
    ModflowZon.load Package_init Util2d_load f model nrow ncol eud w
    = (Ok zon, w')
    /\ calls w'
       = calls w
         ++ match nrow, ncol with
            | None, None => [get_nrow_ncol_nlay_nper model]
            | _, _ => []
            end
         ++ flat_map
              (fun e =>
                 Util2d_load_call model (ZoneFile.shape_for model nrow ncol)
                   np_int (ModflowZon.zonnam_of (ZoneFile.ze_name e))
                 :: match locat (ZoneFile.ze_array e) with
                    | Some u => [add_pop_key_list model u]
                    | None => []
                    end) entries
         ++ [add_package model zon].
Proof.
  intros Hf Hcom Hcount Hent.
  destruct (load_layout_run Package_init Util2d_load Package_init_parent
              _ _ _ _ _ _ _ _ _ _ Hf Hcom Hcount Hent) as (zon & E & _).
  exists zon. eexists. split; [exact E |]. reflexivity.
Qed.

Lemma load_calls_in_file_order_witness :
  exists zon w',
    load_demo (Filename "test.zon") quiet_model None None None zone_world
    = (Ok zon, w')
    /\ calls w'
       = [get_nrow_ncol_nlay_nper quiet_model;
          Util2d_load_call quiet_model (Some 2, Some 3) np_int (u "zonealphab");
          Util2d_load_call quiet_model (Some 2, Some 3) np_int (u "south");
          add_package quiet_model zon].
Proof.
  apply (load_calls_in_file_order (py := py_demo) Package_init_demo Util2d_load_demo
           (fun _ _ _ _ => eq_refl) (Filename "test.zon") quiet_model
           None None None zone_world
           [lines ["# zones"]] (lines ["2"]) zone_entries []);
    layout_hyps.
Defined.

(** X2.  On a well-formed zone file, [load] changes no file on disk and
    leaves the file object just after the array of the last entry.  With a
    verbose model it writes the loading message and then one message per
    entry, in the order of the file, each made of 28 characters and the
    stored name padded to ten characters, or the whole stored name when it
    is longer; with a quiet model it writes nothing. *)
Theorem load_messages_and_position
    {py : PyText.Builtins}
    (Package_init : Model -> string -> string -> Z -> Obj)
    (Util2d_load : text -> Model -> option Z * option Z -> dtype ->
                   text -> option ExtUnitDict -> (Util2d + exn) * text)
    (Package_init_parent : forall model extension name unitnumber,
        Package_init model extension name unitnumber !! "parent"
        = Some (VModel model))
    f model nrow ncol eud w comments line1 entries rest :
  ZoneFile.file_text w f
    = Some (ZoneLayout.zone_file_text comments line1 entries rest) ->
  Forall ZoneLayout.comment_line comments ->
  ZoneLayout.count_line line1 (Z.of_nat (length entries)) ->
  Forall (ZoneLayout.entry_ok Util2d_load model
            (ZoneFile.shape_for model nrow ncol) eud) entries ->
  exists zon w' msgs,
    ModflowZon.load Package_init Util2d_load f model nrow ncol eud w
    = (Ok zon, w')
    /\ fs w' = fs w
    /\ handles w' !! ZoneTrace.handle_of f w = Some rest
    /\ stdout w'
       = stdout w ++ (if verbose model
                      then (u "loading zone package file..." ++ newline) :: msgs
                      else [])
    /\ msgs = map (fun e => u "   reading data for " ++ dquote ++
                     PyText.ljust 10 (ModflowZon.zonnam_of (ZoneFile.ze_name e))
                     ++ dquote ++ u " zone" ++ newline) entries
    /\ Forall2 (fun m e =>
         length m
         = (28 + Nat.max 10 (length (ModflowZon.zonnam_of
                                       (ZoneFile.ze_name e))))%nat)
       msgs entries.
Proof.
  intros Hf Hcom Hcount Hent.
  destruct (load_layout_run Package_init Util2d_load Package_init_parent
              _ _ _ _ _ _ _ _ _ _ Hf Hcom Hcount Hent) as (zon & E & _).
  exists zon. do 2 eexists. split; [exact E |]. split; [done |].
  split; [| split; [reflexivity | split; [reflexivity |]]].
  - cbn [handles]. apply list_lookup_insert_eq.
    apply opened_lookup in Hf. by eapply lookup_lt_Some.
  - clear. induction entries as [| e es IH]; simpl; constructor; [| done].
    apply zone_msg_length.
Qed.

Lemma load_messages_and_position_witness :
  exists zon w' msgs,
    load_demo (Filename "test.zon") verbose_model None None None zone_world
    = (Ok zon, w')
    /\ fs w' = fs zone_world
    /\ handles w' !! 0%nat = Some []
    /\ stdout w' = (u "loading zone package file..." ++ newline) :: msgs
    /\ msgs = [u "   reading data for " ++ dquote ++ u "zonealphab" ++ dquote
                 ++ u " zone" ++ newline;
               u "   reading data for " ++ dquote ++ u "south     " ++ dquote
                 ++ u " zone" ++ newline]
    /\ Forall2 (fun m e =>
         length m
         = (28 + Nat.max 10 (length (ModflowZon.zonnam_of (py := py_demo)
                                       (ZoneFile.ze_name e))))%nat)
       msgs zone_entries.
Proof.
  apply (load_messages_and_position (py := py_demo) Package_init_demo Util2d_load_demo
           (fun _ _ _ _ => eq_refl) (Filename "test.zon") verbose_model
           None None None zone_world
           [lines ["# zones"]] (lines ["2"]) zone_entries []);
    layout_hyps.
Defined.

(** X3.  On a well-formed zone file whose names need not be distinct, the
    [zone_dict] that [load] returns has pairwise distinct keys, the stored
    names of the file; each key holds the array of the last entry stored
    under it; [nzn] is the number of keys, at most the number of entries of
    the file, and equal to it exactly when the stored names are pairwise
    distinct. *)
Theorem load_duplicate_names
    {py : PyText.Builtins}
    (Package_init : Model -> string -> string -> Z -> Obj)
    (Util2d_load : text -> Model -> option Z * option Z -> dtype ->
                   text -> option ExtUnitDict -> (Util2d + exn) * text)
    (Package_init_parent : forall model extension name unitnumber,
        Package_init model extension name unitnumber !! "parent"
        = Some (VModel model))
    f model nrow ncol eud w comments line1 entries rest :
  ZoneFile.file_text w f
    = Some (ZoneLayout.zone_file_text comments line1 entries rest) ->
  Forall ZoneLayout.comment_line comments ->
  ZoneLayout.count_line line1 (Z.of_nat (length entries)) ->
  Forall (ZoneLayout.entry_ok Util2d_load model
            (ZoneFile.shape_for model nrow ncol) eud) entries ->
  exists zon w' d,
    ModflowZon.load Package_init Util2d_load f model nrow ncol eud w
    = (Ok zon, w')
    /\ zon !! "zone_dict" = Some (VDict d)
    /\ zon !! "nzn" = Some (VInt (Z.of_nat (length d)))
    /\ NoDup (od_keys d)
    /\ (forall k, k ∈ od_keys d <-> k ∈ map ZoneLayout.entry_key entries)
    /\ (forall k,
          od_get k d
          = ZoneFile.ze_array
              <$> last (filter (fun e => ZoneLayout.entry_key e = k) entries))
    /\ (length d <= length entries)%nat
    /\ (length d = length entries
        <-> NoDup (map ZoneLayout.entry_key entries)).
Proof.
  intros Hf Hcom Hcount Hent.
  destruct (load_layout_run Package_init Util2d_load Package_init_parent
              _ _ _ _ _ _ _ _ _ _ Hf Hcom Hcount Hent)
    as (zon & E & Hzd & Hnzn).
  exists zon. eexists. exists (ZoneTrace.zones_of entries).
  split; [exact E |]. split; [exact Hzd |]. split; [exact Hnzn |].
  split; [apply add_zones_NoDup; constructor |].
  split.
  { intros k. unfold ZoneTrace.zones_of. rewrite add_zones_elem.
    split; [intros [H | H]; [by apply elem_of_nil in H | done] | by right]. }
  split.
  { intros k. unfold ZoneTrace.zones_of. rewrite add_zones_get.
    by destruct (last _). }
  apply zones_of_length.
Qed.

Lemma load_duplicate_names_witness :
  exists zon w' d,
    load_demo (Filename "dup.zon") quiet_model None None None dup_world
    = (Ok zon, w')
    /\ zon !! "zone_dict" = Some (VDict d)
    /\ zon !! "nzn" = Some (VInt (Z.of_nat (length d)))
    /\ NoDup (od_keys d)
    /\ (forall k, k ∈ od_keys d <-> k ∈ map (ZoneLayout.entry_key (py := py_demo)) dup_entries)
    /\ (forall k,
          od_get k d
          = ZoneFile.ze_array
              <$> last (filter (fun e => ZoneLayout.entry_key (py := py_demo) e = k)
                               dup_entries))
    /\ (length d <= length dup_entries)%nat
    /\ (length d = length dup_entries
        <-> NoDup (map (ZoneLayout.entry_key (py := py_demo)) dup_entries)).
Proof.
  apply (load_duplicate_names (py := py_demo) Package_init_demo Util2d_load_demo
           (fun _ _ _ _ => eq_refl) (Filename "dup.zon") quiet_model
           None None None dup_world [] (lines ["2"]) dup_entries []);
    layout_hyps.
Defined.

(** In [dup.zon] the two names share their first ten letters: one key,
    holding the second array, and [nzn] is 1 though the file says 2. *)
Example load_duplicate_names_ex :
  returned (load_demo (Filename "dup.zon") quiet_model None None None
                      dup_world) !! "zone_dict"
  = Some (VDict [(u "zonealphab", mkUtil2d [[3; 3; 3]] None)])
  /\ returned (load_demo (Filename "dup.zon") quiet_model None None None
                         dup_world) !! "nzn" = Some (VInt 1).
Proof. split; vm_compute; reflexivity. Qed.

(** *** The names of the zones *)

(** C7, as the code has it.  On a well-formed zone file, the keys of the
    [zone_dict] that [load] returns are the names of the file, each cut to
    its first 10 characters and then lower-cased: a string is a key exactly
    when it is [lower()] of the first 10 characters of the name of an entry,
    the whole name when it has no more than 10.  A key is longer than 10
    characters only when [lower()] made the first 10 characters of its name
    longer. *)
Theorem load_zone_names_first_10_lowercased
    {py : PyText.Builtins}
    (Package_init : Model -> string -> string -> Z -> Obj)
    (Util2d_load : text -> Model -> option Z * option Z -> dtype ->
                   text -> option ExtUnitDict -> (Util2d + exn) * text)
    (Package_init_parent : forall model extension name unitnumber,
        Package_init model extension name unitnumber !! "parent"
        = Some (VModel model))
    f model nrow ncol eud w comments line1 entries rest :
  ZoneFile.file_text w f
    = Some (ZoneLayout.zone_file_text comments line1 entries rest) ->
  Forall ZoneLayout.comment_line comments ->
  ZoneLayout.count_line line1 (Z.of_nat (length entries)) ->
  Forall (ZoneLayout.entry_ok Util2d_load model
            (ZoneFile.shape_for model nrow ncol) eud) entries ->
  exists zon w' d,
    ModflowZon.load Package_init Util2d_load f model nrow ncol eud w
    = (Ok zon, w')
    /\ zon !! "zone_dict" = Some (VDict d)
    /\ (forall k,
          k ∈ od_keys d
          <-> exists e, e ∈ entries
                        /\ k = PyText.lower (take 10 (ZoneFile.ze_name e)))
    /\ (forall k,
          k ∈ od_keys d -> (10 < length k)%nat ->
          exists e, e ∈ entries
                    /\ k = PyText.lower (take 10 (ZoneFile.ze_name e))
                    /\ (length (take 10 (ZoneFile.ze_name e)) < length k)%nat).
Proof.
  intros Hf Hcom Hcount Hent.
  destruct (load_layout_run Package_init Util2d_load Package_init_parent
              _ _ _ _ _ _ _ _ _ _ Hf Hcom Hcount Hent)
    as (zon & E & Hzd & _).
  assert (Hkeys : forall k,
            k ∈ od_keys (ZoneTrace.zones_of entries)
            <-> exists e, e ∈ entries
                          /\ k = PyText.lower (take 10 (ZoneFile.ze_name e))).
  { intros k. unfold ZoneTrace.zones_of. rewrite add_zones_elem.
    rewrite list_elem_of_fmap. unfold ZoneLayout.entry_key.
    split.
    - intros [H | (e & -> & He)]; [by apply elem_of_nil in H |].
      exists e. split; [done |]. apply zonnam_of_take.
    - intros (e & He & ->). right. exists e. split; [| done].
      symmetry. apply zonnam_of_take. }
  exists zon. eexists. exists (ZoneTrace.zones_of entries).
  split; [exact E |]. split; [exact Hzd |]. split; [exact Hkeys |].
  intros k Hk Hlen. apply Hkeys in Hk as (e & He & ->).
  exists e. split; [done |]. split; [done |].
  rewrite length_take. lia.
Qed.

Lemma load_zone_names_first_10_lowercased_witness :
  exists zon w' d,
    load_demo (Filename "test.zon") quiet_model None None None zone_world
    = (Ok zon, w')
    /\ zon !! "zone_dict" = Some (VDict d)
    /\ (forall k,
          k ∈ od_keys d
          <-> exists e, e ∈ zone_entries
                        /\ k = PyDemo.lower (take 10 (ZoneFile.ze_name e)))
    /\ (forall k,
          k ∈ od_keys d -> (10 < length k)%nat ->
          exists e, e ∈ zone_entries
                    /\ k = PyDemo.lower (take 10 (ZoneFile.ze_name e))
                    /\ (length (take 10 (ZoneFile.ze_name e)) < length k)%nat).
Proof.
  apply (load_zone_names_first_10_lowercased (py := py_demo)
           Package_init_demo Util2d_load_demo
           (fun _ _ _ _ => eq_refl) (Filename "test.zon") quiet_model
           None None None zone_world
           [lines ["# zones"]] (lines ["2"]) zone_entries []);
    layout_hyps.
Defined.

(** The names of [test.zon] as they are stored. *)
Example zone_names_ex :
  exists d,
    returned (load_demo (Filename "test.zon") quiet_model None None None
                        zone_world) !! "zone_dict" = Some (VDict d)
    /\ od_keys d = [u "zonealphab"; u "south"].
Proof. eexists. split; vm_compute; reflexivity. Qed.

(** C7 as stated fails: [lower()] can make a string longer.  The lower
    case of U+0130, the capital I with a dot above, is the two characters
    U+0069 U+0307; a zone whose name is ten times that letter is stored
    under a key of twenty characters. *)
Lemma load_zone_name_of_20_characters :
  let run := load_demo (Filename "d.zon") quiet_model None None None
                       (file_world "d.zon" dotted_text) in
  length dotted_name = 10%nat
  /\ returned run !! "zone_dict"
     = Some (VDict [(PyDemo.lower dotted_name, mkUtil2d [[1; 1; 2]] None)])
  /\ returned run !! "nzn" = Some (VInt 1)
  /\ length (PyDemo.lower dotted_name) = 20%nat.
Proof. repeat split; vm_compute; reflexivity. Qed.

(** *** Files that cannot be read *)

Lemma header_loop_eof (h : nat) :
  forall comments fuel w,
    Forall ZoneLayout.comment_line comments ->
    handles w !! h = Some (ZoneFile.concat comments) ->
    (length comments < fuel)%nat ->
    ModflowZon.header_loop fuel h w = (Raise IndexError, set_handle h [] w).
Proof.
  induction comments as [| c cs IH]; intros fuel w HF Hh Hfuel;
    (destruct fuel as [| fuel]; [simpl in Hfuel; lia |]);
    cbn [ModflowZon.header_loop].
  - simpl in Hh. rewrite bind_run. unfold readline. rewrite Hh. reflexivity.
  - apply Forall_cons in HF as [[Hc Hc'] HF]. simpl in Hh.
    rewrite (bind_ok _ _ _ _ _ (readline_run _ _ _ _ Hh Hc)).
    destruct c as [| x c]; [done |]. simpl in Hc'.
    rewrite bind_run. cbn [str_first ret]. cbv beta iota. rewrite Hc'.
    cbn [negb]. cbv iota.
    rewrite (IH fuel (set_handle h _ w) HF).
    + by rewrite set_handle_twice.
    + by eapply set_handle_lookup.
    + simpl in Hfuel. lia.
Qed.

Lemma header_eof (h : nat) (comments : list text) (w : World) :
  Forall ZoneLayout.comment_line comments ->
  handles w !! h = Some (ZoneFile.concat comments) ->
  ModflowZon.header h w = (Raise IndexError, set_handle h [] w).
Proof.
  intros HF Hh. unfold ModflowZon.header.
  apply (header_loop_eof h comments); [done | done |].
  rewrite Hh. simpl. pose proof (comments_length comments [] HF) as H.
  rewrite app_nil_r in H. lia.
Qed.

Lemma load_open
    {py : PyText.Builtins}
    (Package_init : Model -> string -> string -> Z -> Obj)
    (Util2d_load : text -> Model -> option Z * option Z -> dtype ->
                   text -> option ExtUnitDict -> (Util2d + exn) * text)
    f model nrow ncol eud w txt :
  ZoneFile.file_text w f = Some txt ->
  ModflowZon.load Package_init Util2d_load f model nrow ncol eud w
  = (line ← ModflowZon.header (ZoneTrace.handle_of f w);
     t0 ← list_first (PyText.split (PyText.strip line));
     nzn ← py_int t0;
     shape ← match nrow, ncol with
             | None, None =>
                 d ← model_dims model;
                 let '(nrow, ncol, nlay, nper) := d in
                 ret (Some nrow, Some ncol)
             | _, _ => ret (nrow, ncol)
             end;
     zone_dict ← ModflowZon.read_zones Util2d_load (Z.to_nat nzn)
                   (ZoneTrace.handle_of f w) model shape eud [];
     ModflowZon.new Package_init model (Some zone_dict))
      (mkWorld (fs w) (ZoneTrace.opened f w)
               (stdout w ++ (if verbose model then [ZoneTrace.loading_msg]
                             else []))
               (calls w)).
Proof.
  intros Hf. unfold ModflowZon.load.
  rewrite bind_run. unfold when, stdout_write.
  assert (Hopen : match f with
                  | Filename path => exists raw, fs w !! path = Some raw
                  | FileObj _ => True
                  end).
  { destruct f as [path | h]; [| done]. simpl in Hf.
    destruct (fs w !! path); [eauto | done]. }
  destruct (verbose model); cbn [ret]; cbv beta iota;
    rewrite bind_run; destruct f as [path | h];
    try destruct Hopen as (raw & Hraw);
    cbn [ZoneTrace.opened ZoneTrace.handle_of];
    unfold open; cbn [fs handles stdout calls]; rewrite ?Hraw;
    cbn [ret default]; cbv beta iota; rewrite ?app_nil_r; try done.
  all: by destruct w.
Qed.

(** X4.  [load] of a file name that is not on disk raises [IOError] before
    anything is read: no file object is opened and no call is made; a
    verbose model has already written the loading message. *)
Theorem load_missing_file
    {py : PyText.Builtins}
    (Package_init : Model -> string -> string -> Z -> Obj)
    (Util2d_load : text -> Model -> option Z * option Z -> dtype ->
                   text -> option ExtUnitDict -> (Util2d + exn) * text)
    path model nrow ncol eud w :
  fs w !! path = None ->
  ModflowZon.load Package_init Util2d_load (Filename path) model nrow ncol
                  eud w
  = (Raise IOError,
     mkWorld (fs w) (handles w)
             (stdout w ++ if verbose model
                          then [u "loading zone package file..." ++ newline]
                          else [])
             (calls w)).
Proof.
  intros Hf. unfold ModflowZon.load. rewrite bind_run.
  unfold when, stdout_write.
  destruct (verbose model); cbn [ret]; cbv beta iota; rewrite bind_run;
    unfold open; cbn [fs]; rewrite Hf; [done |].
  rewrite app_nil_r. by destruct w.
Qed.

Lemma load_missing_file_witness :
  load_demo (Filename "none.zon") verbose_model None None None zone_world
  = (Raise IOError,
     mkWorld (fs zone_world) []
             [u "loading zone package file..." ++ newline] []).
Proof.
  apply (load_missing_file (py := py_demo) Package_init_demo Util2d_load_demo "none.zon"
           verbose_model None None None zone_world).
  vm_compute. reflexivity.
Defined.

(** X5.  When the file ends in its header, that is when it is empty or
    made of comment lines only, [load] raises [IndexError]; no call has
    been made and the file object is at the end of the file. *)
Theorem load_header_only
    {py : PyText.Builtins}
    (Package_init : Model -> string -> string -> Z -> Obj)
    (Util2d_load : text -> Model -> option Z * option Z -> dtype ->
                   text -> option ExtUnitDict -> (Util2d + exn) * text)
    f model nrow ncol eud w comments :
  ZoneFile.file_text w f = Some (ZoneFile.concat comments) ->
  Forall ZoneLayout.comment_line comments ->
  exists w',
    ModflowZon.load Package_init Util2d_load f model nrow ncol eud w
    = (Raise IndexError, w')
    /\ calls w' = calls w
    /\ handles w' !! ZoneTrace.handle_of f w = Some [].
Proof.
  intros Hf Hcom. rewrite (load_open _ _ _ _ _ _ _ _ _ Hf).
  rewrite bind_run.
  erewrite header_eof; [| exact Hcom | by apply opened_lookup].
  eexists. split; [reflexivity |]. split; [done |].
  cbn [handles set_handle]. apply list_lookup_insert_eq.
  apply opened_lookup in Hf. by eapply lookup_lt_Some.
Qed.

Lemma load_header_only_witness :
  (exists w',
     load_demo (Filename "e.zon") quiet_model None None None
               (file_world "e.zon" [])
     = (Raise IndexError, w')
     /\ calls w' = [] /\ handles w' !! 0%nat = Some [])
  /\ (exists w',
     load_demo (Filename "c.zon") quiet_model None None None
               (file_world "c.zon" (lines ["# one"; "# two"]))
     = (Raise IndexError, w')
     /\ calls w' = [] /\ handles w' !! 0%nat = Some []).
Proof.
  split.
  - apply (load_header_only (py := py_demo) Package_init_demo Util2d_load_demo
             (Filename "e.zon") quiet_model None None None
             (file_world "e.zon" []) []); [reflexivity | apply Forall_nil_2].
  - apply (load_header_only (py := py_demo) Package_init_demo Util2d_load_demo
             (Filename "c.zon") quiet_model None None None
             (file_world "c.zon" (lines ["# one"; "# two"]))
             [lines ["# one"]; lines ["# two"]]); layout_hyps.
Defined.

(** X6.  When the first line after the comments has no word, [load] raises
    [IndexError]; when its first word is not an integer, [load] raises
    [ValueError].  In both cases no call has been made and the file object
    is just after that line. *)
Theorem load_bad_count_line
    {py : PyText.Builtins}
    (Package_init : Model -> string -> string -> Z -> Obj)
    (Util2d_load : text -> Model -> option Z * option Z -> dtype ->
                   text -> option ExtUnitDict -> (Util2d + exn) * text)
    f model nrow ncol eud w comments line body :
  ZoneFile.file_text w f
    = Some (ZoneFile.concat comments ++ line ++ body) ->
  Forall ZoneLayout.comment_line comments ->
  ZoneFile.is_line line = true ->
  ZoneFile.starts_with_hash line = false ->
  (forall tok, ZoneFile.first_token line = Some tok -> PyText.int tok = None) ->
  exists w',
    ModflowZon.load Package_init Util2d_load f model nrow ncol eud w
    = (Raise match ZoneFile.first_token line with
             | Some _ => ValueError
             | None => IndexError
             end, w')
    /\ calls w' = calls w
    /\ handles w' !! ZoneTrace.handle_of f w = Some body.
Proof.
  intros Hf Hcom Hl Hh Hint. rewrite (load_open _ _ _ _ _ _ _ _ _ Hf).
  rewrite bind_run.
  erewrite header_run; [| exact Hcom | exact Hl | exact Hh
                        | by apply opened_lookup].
  rewrite bind_run. unfold ZoneFile.first_token in *.
  assert (Hb : handles (set_handle (ZoneTrace.handle_of f w) body
                 (mkWorld (fs w) (ZoneTrace.opened f w)
                    (stdout w ++ (if verbose model
                                  then [ZoneTrace.loading_msg] else []))
                    (calls w))) !! ZoneTrace.handle_of f w = Some body).
  { cbn [handles set_handle]. apply list_lookup_insert_eq.
    apply opened_lookup in Hf. by eapply lookup_lt_Some. }
  destruct (PyText.split (PyText.strip line)) as [| t0 ts]; cbn [list_first head].
  - eexists. split; [reflexivity |]. done.
  - cbn [ret]. cbv beta iota. rewrite bind_run. unfold py_int.
    rewrite (Hint t0 eq_refl). eexists. split; [reflexivity |]. done.
Qed.

Lemma load_bad_count_line_witness :
  (exists w',
     load_demo (Filename "b.zon") quiet_model None None None
               (file_world "b.zon" (lines [""; "2"]))
     = (Raise IndexError, w')
     /\ calls w' = [] /\ handles w' !! 0%nat = Some (lines ["2"]))
  /\ (exists w',
     load_demo (Filename "bad.zon") quiet_model None None None bad_world
     = (Raise ValueError, w')
     /\ calls w' = [] /\ handles w' !! 0%nat = Some []).
Proof.
  split.
  - apply (load_bad_count_line (py := py_demo) Package_init_demo Util2d_load_demo
             (Filename "b.zon") quiet_model None None None
             (file_world "b.zon" (lines [""; "2"]))
             [] newline (lines ["2"]));
      [reflexivity | apply Forall_nil_2 | reflexivity | reflexivity |].
    intros tok H. vm_compute in H. discriminate H.
  - apply (load_bad_count_line (py := py_demo) Package_init_demo Util2d_load_demo
             (Filename "bad.zon") quiet_model None None None bad_world
             [lines ["# zones"]] (lines ["two"]) []);
      [reflexivity | layout_hyps | reflexivity | reflexivity |].
    intros tok H. vm_compute in H. injection H as <-. reflexivity.
Defined.

(** X7.  When the number of zones on the first line is zero or negative,
    [load] reads nothing after that line and calls [Util2d.load] not once:
    it returns a package with an empty [zone_dict] and [nzn] 0, and adds it
    to the model. *)
Theorem load_nonpositive_count
    {py : PyText.Builtins}
    (Package_init : Model -> string -> string -> Z -> Obj)
    (Util2d_load : text -> Model -> option Z * option Z -> dtype ->
                   text -> option ExtUnitDict -> (Util2d + exn) * text)
    (Package_init_parent : forall model extension name unitnumber,
        Package_init model extension name unitnumber !! "parent"
        = Some (VModel model))
    f model nrow ncol eud w comments line1 nzn body :
  ZoneFile.file_text w f
    = Some (ZoneFile.concat comments ++ line1 ++ body) ->
  Forall ZoneLayout.comment_line comments ->
  ZoneLayout.count_line line1 nzn ->
  nzn <= 0 ->
  exists zon w',
    ModflowZon.load Package_init Util2d_load f model nrow ncol eud w
    = (Ok zon, w')
    /\ zon !! "zone_dict" = Some (VDict [])
    /\ zon !! "nzn" = Some (VInt 0)
    /\ handles w' !! ZoneTrace.handle_of f w = Some body
    /\ calls w'
       = calls w
         ++ match nrow, ncol with
            | None, None => [get_nrow_ncol_nlay_nper model]
            | _, _ => []
            end
         ++ [add_package model zon].
Proof.
  intros Hf Hcom Hcount Hn.
  rewrite (load_header Package_init Util2d_load _ _ _ _ _ _ _ _ _ _
             Hf Hcom Hcount).
  rewrite Z2Nat.nonpos by done. rewrite bind_run.
  cbn [ModflowZon.read_zones ret]. unfold ModflowZon.new.
  destruct (init_run Package_init Package_init_parent model (Some []) "zon"
              1001 (ZoneTrace.after_header f model nrow ncol body w))
    as (self & E & Hnzn & Hzd).
  exists self. eexists. split; [exact E |]. split; [done |]. split; [done |].
  split.
  - cbn [handles ZoneTrace.after_header]. apply list_lookup_insert_eq.
    apply opened_lookup in Hf. by eapply lookup_lt_Some.
  - cbn [calls ZoneTrace.after_header]. by rewrite <- app_assoc.
Qed.

Lemma load_nonpositive_count_witness :
  exists zon w',
    load_demo (Filename "n.zon") quiet_model (Some 2) (Some 3) None
              (file_world "n.zon" (lines ["-3 zones"] ++ u "south"))
    = (Ok zon, w')
    /\ zon !! "zone_dict" = Some (VDict [])
    /\ zon !! "nzn" = Some (VInt 0)
    /\ handles w' !! 0%nat = Some (u "south")
    /\ calls w' = [add_package quiet_model zon].
Proof.
  apply (load_nonpositive_count (py := py_demo) Package_init_demo Util2d_load_demo
           (fun _ _ _ _ => eq_refl) (Filename "n.zon") quiet_model
           (Some 2) (Some 3) None
           (file_world "n.zon" (lines ["-3 zones"] ++ u "south"))
           [] (lines ["-3 zones"]) (-3) (u "south"));
    [reflexivity | apply Forall_nil_2 | layout_hyps | lia].
Defined.

(** X8.  When the file announces more zones than it holds and ends after
    the last one, [load] reads the zones that are there, with their calls,
    and then raises [IndexError]: no package is added to the model. *)
Theorem load_truncated_file
    {py : PyText.Builtins}
    (Package_init : Model -> string -> string -> Z -> Obj)
    (Util2d_load : text -> Model -> option Z * option Z -> dtype ->
                   text -> option ExtUnitDict -> (Util2d + exn) * text)
    f model nrow ncol eud w comments line1 nzn entries :
  ZoneFile.file_text w f
    = Some (ZoneLayout.zone_file_text comments line1 entries []) ->
  Forall ZoneLayout.comment_line comments ->
  ZoneLayout.count_line line1 nzn ->
  Z.of_nat (length entries) < nzn ->
  Forall (ZoneLayout.entry_ok Util2d_load model
            (ZoneFile.shape_for model nrow ncol) eud) entries ->
  exists w',
    ModflowZon.load Package_init Util2d_load f model nrow ncol eud w
    = (Raise IndexError, w')
    /\ calls w'
       = calls w
         ++ match nrow, ncol with
            | None, None => [get_nrow_ncol_nlay_nper model]
            | _, _ => []
            end
         ++ flat_map
              (fun e =>
                 Util2d_load_call model (ZoneFile.shape_for model nrow ncol)
                   np_int (ModflowZon.zonnam_of (ZoneFile.ze_name e))
                 :: match locat (ZoneFile.ze_array e) with
                    | Some u => [add_pop_key_list model u]
                    | None => []
                    end) entries.
Proof.
  intros Hf Hcom Hcount Hlen Hent. unfold ZoneLayout.zone_file_text in Hf.
  rewrite (load_header Package_init Util2d_load _ _ _ _ _ _ _ _ _ _
             Hf Hcom Hcount).
  rewrite bind_run.
  assert (Hn : exists n, Z.to_nat nzn = (length entries + S n)%nat).
  { exists (Z.to_nat nzn - length entries - 1)%nat. lia. }
  destruct Hn as (n & ->).
  rewrite (read_zones_entries Util2d_load _ _ _ _ (S n) entries [] _ []
             Hent).
  2: { simpl. apply list_lookup_insert_eq.
       apply opened_lookup in Hf. by eapply lookup_lt_Some. }
  cbn [ModflowZon.read_zones]. rewrite bind_run.
  unfold readline. cbn [handles ZoneTrace.after_entries ZoneTrace.after_header].
  rewrite list_lookup_insert_eq.
  2: { rewrite length_insert. apply opened_lookup in Hf.
       by eapply lookup_lt_Some. }
  cbn [PyText.readline]. rewrite bind_run.
  eexists. split; [reflexivity |].
  cbn [calls ZoneTrace.after_entries ZoneTrace.after_header].
  by rewrite <- app_assoc.
Qed.

Lemma load_truncated_file_witness :
  exists w',
    load_demo (Filename "s.zon") quiet_model (Some 2) None None
              (file_world "s.zon" short_text)
    = (Raise IndexError, w')
    /\ calls w'
       = [Util2d_load_call quiet_model (Some 2, None) np_int (u "zonealphab");
          Util2d_load_call quiet_model (Some 2, None) np_int (u "south")].
Proof.
  apply (load_truncated_file (py := py_demo) Package_init_demo Util2d_load_demo
           (Filename "s.zon") quiet_model (Some 2) None None
           (file_world "s.zon" short_text) [] (lines ["3"]) 3
           zone_entries);
    [reflexivity | apply Forall_nil_2 | layout_hyps | simpl; lia
    | layout_hyps].
Defined.

(** X9.  When [Util2d.load] raises on the array of a zone, [load] raises
    the same exception: the zones before it have been read, with their
    calls, the failing call is the last one, and no package is added to the
    model. *)
Theorem load_array_error
    {py : PyText.Builtins}
    (Package_init : Model -> string -> string -> Z -> Obj)
    (Util2d_load : text -> Model -> option Z * option Z -> dtype ->
                   text -> option ExtUnitDict -> (Util2d + exn) * text)
    f model nrow ncol eud w comments line1 nzn entries line tok txt e rest :
  ZoneFile.file_text w f
    = Some (ZoneLayout.zone_file_text comments line1 entries (line ++ txt)) ->
  Forall ZoneLayout.comment_line comments ->
  ZoneLayout.count_line line1 nzn ->
  Z.of_nat (length entries) < nzn ->
  Forall (ZoneLayout.entry_ok Util2d_load model
            (ZoneFile.shape_for model nrow ncol) eud) entries ->
  ZoneFile.is_line line = true ->
  ZoneFile.first_token line = Some tok ->
  Util2d_load txt model (ZoneFile.shape_for model nrow ncol) np_int
              (ModflowZon.zonnam_of tok) eud = (inr e, rest) ->
  exists w',
    ModflowZon.load Package_init Util2d_load f model nrow ncol eud w
    = (Raise e, w')
    /\ handles w' !! ZoneTrace.handle_of f w = Some rest
    /\ calls w'
       = calls w
         ++ match nrow, ncol with
            | None, None => [get_nrow_ncol_nlay_nper model]
            | _, _ => []
            end
         ++ flat_map
              (fun e =>
                 Util2d_load_call model (ZoneFile.shape_for model nrow ncol)
                   np_int (ModflowZon.zonnam_of (ZoneFile.ze_name e))
                 :: match locat (ZoneFile.ze_array e) with
                    | Some u => [add_pop_key_list model u]
                    | None => []
                    end) entries
         ++ [Util2d_load_call model (ZoneFile.shape_for model nrow ncol)
               np_int (ModflowZon.zonnam_of tok)].
Proof.
  intros Hf Hcom Hcount Hlen Hent Hl Htok Hread.
  unfold ZoneLayout.zone_file_text in Hf.
  rewrite (load_header Package_init Util2d_load _ _ _ _ _ _ _ _ _ _
             Hf Hcom Hcount).
  rewrite bind_run.
  assert (Hn : exists n, Z.to_nat nzn = (length entries + S n)%nat).
  { exists (Z.to_nat nzn - length entries - 1)%nat. lia. }
  destruct Hn as (n & ->).
  assert (Hlt : (ZoneTrace.handle_of f w < length (ZoneTrace.opened f w))%nat).
  { apply opened_lookup in Hf. by eapply lookup_lt_Some. }
  rewrite (read_zones_entries Util2d_load _ _ _ _ (S n) entries [] _
             (line ++ txt) Hent).
  2: { simpl. by apply list_lookup_insert_eq. }
  cbn [ModflowZon.read_zones].
  erewrite (bind_ok _ _ _ _ _ (readline_run _ line txt _ _ Hl)).
  Unshelve.
  2: { cbn [handles ZoneTrace.after_entries ZoneTrace.after_header].
       apply list_lookup_insert_eq. by rewrite length_insert. }
  unfold ZoneFile.first_token in Htok.
  destruct (PyText.split (PyText.strip line)) as [| t0 ts]; [done |].
  injection Htok as ->.
  rewrite bind_run. cbn [list_first ret]. cbv beta iota. rewrite bind_run.
  unfold when, stdout_write, ModflowZon.Util2d_load_on, call,
    ModflowZon.Util2d_read, set_handle.
  destruct (verbose model); cbn [ret]; cbv beta iota; rewrite !bind_run;
    cbn [fs handles stdout calls ZoneTrace.after_entries
         ZoneTrace.after_header];
    (rewrite list_lookup_insert_eq by (by rewrite !length_insert));
    rewrite Hread; cbv beta iota;
    (eexists; split; [reflexivity |]; cbn [handles calls]; split;
     [apply list_lookup_insert_eq; by rewrite !length_insert
     | by rewrite <- !app_assoc]).
Qed.

Lemma load_array_error_witness :
  exists w',
    load_demo (Filename "x.zon") quiet_model (Some 1) (Some 3) None
              (file_world "x.zon" broken_text)
    = (Raise (Util2dError "not an integer"), w')
    /\ handles w' !! 0%nat = Some []
    /\ calls w'
       = [Util2d_load_call quiet_model (Some 1, Some 3) np_int (u "zonealphab");
          Util2d_load_call quiet_model (Some 1, Some 3) np_int (u "south")].
Proof.
  apply (load_array_error (py := py_demo) Package_init_demo Util2d_load_demo
           (Filename "x.zon") quiet_model (Some 1) (Some 3) None
           (file_world "x.zon" broken_text) [] (lines ["2"]) 2
           [ZoneFile.mkEntry (lines ["ZoneAlphaBeta"]) (u "ZoneAlphaBeta")
                             (lines ["1 1 2"]) (mkUtil2d [[1; 1; 2]] None)]
           (lines ["south"]) (u "south") (lines ["3 x 3"])
           (Util2dError "not an integer") []);
    [reflexivity | apply Forall_nil_2 | layout_hyps | simpl; lia
    | layout_hyps | reflexivity | reflexivity | reflexivity].
Defined.

(** X11.  [load] ends on every input: whatever the file object holds, and
    whatever [Util2d.load] does, the [while True] loop over the header
    stops, and [load] returns a package or raises. *)
Theorem load_returns_or_raises
    {py : PyText.Builtins}
    (Package_init : Model -> string -> string -> Z -> Obj)
    (Util2d_load : text -> Model -> option Z * option Z -> dtype ->
                   text -> option ExtUnitDict -> (Util2d + exn) * text)
    f model nrow ncol eud w :
  (forall h w0, (ModflowZon.header h w0).1 <> OutOfFuel)
  /\ ((exists zon, (ModflowZon.load Package_init Util2d_load f model nrow
                                    ncol eud w).1 = Ok zon)
      \/ (exists e, (ModflowZon.load Package_init Util2d_load f model nrow
                                     ncol eud w).1 = Raise e)).
Proof.
  split.
  - intros h w0. destruct (ModflowZon.header h w0) as [r w1] eqn:E.
    by destruct (silent_header _ _ _ _ E).
  - pose proof (load_never_out_of_fuel Package_init Util2d_load f model nrow
                  ncol eud w) as H.
    destruct (ModflowZon.load _ _ _ _ _ _ _ w) as [[zon | e |] w']; simpl in *;
      [left | right |]; eauto. done.
Qed.

(** X12.  The name under which a zone is stored is the lower-cased first
    ten characters of its name, whether the name has more than ten
    characters or not.  So it depends on the first ten characters only, and
    two names are stored under the same key exactly when their first ten
    characters are equal once lower-cased. *)
Theorem zonnam_of_first_ten_lowercase {py : PyText.Builtins} (a b : text) :
  ModflowZon.zonnam_of a = PyText.lower (take 10 a)
  /\ (take 10 a = take 10 b ->
      ModflowZon.zonnam_of a = ModflowZon.zonnam_of b)
  /\ (ModflowZon.zonnam_of a = ModflowZon.zonnam_of b
      <-> PyText.lower (take 10 a) = PyText.lower (take 10 b)).
Proof.
  split; [apply zonnam_of_take |]. split.
  - intros H. by rewrite !zonnam_of_take, H.
  - by rewrite !zonnam_of_take.
Qed.

(** X13.  When the constructor returns, the package has the heading and
    the help page of the ZONE package, and every attribute other than
    [heading], [url], [nzn] and [zone_dict] is as the ancestor's constructor,
    called with the name [ZONE], left it; one call has been made, the
    [add_package] on the object the ancestor stored as [parent]. *)
Theorem init_keeps_ancestor_attributes
    (Package_init : Model -> string -> string -> Z -> Obj)
    model zone_dict extension unitnumber w self w' :
  ModflowZon.__init__ Package_init model zone_dict extension unitnumber w
    = (Ok self, w') ->
  self !! "heading" = Some (VStr "# ZONE for MODFLOW, generated by Flopy.")
  /\ self !! "url" = Some (VStr "zon.htm")
  /\ (forall name,
        name ∉ ["heading"; "url"; "nzn"; "zone_dict"] ->
        self !! name
        = Package_init model extension "ZONE" unitnumber !! name)
  /\ exists parent,
       Package_init model extension "ZONE" unitnumber !! "parent"
       = Some (VModel parent)
       /\ w' = mkWorld (fs w) (handles w) (stdout w)
                       (calls w ++ [add_package parent self]).
Proof.
  unfold ModflowZon.__init__. rewrite bind_run. unfold getattr.
  match goal with |- context [?o !! "parent"] =>
    set (obj := o); destruct (obj !! "parent") as [v |] eqn:Ep end;
    [| done].
  cbn [ret]. cbv beta iota. destruct v as [| | | m]; try done.
  intros [= <- <-].
  assert (Hanc : forall name,
            name ∉ ["heading"; "url"; "nzn"; "zone_dict"] ->
            obj !! name = Package_init model extension "ZONE" unitnumber !! name).
  { intros name Hn. unfold obj.
    assert (name <> "heading" /\ name <> "url" /\ name <> "nzn"
            /\ name <> "zone_dict") as (H1 & H2 & H3 & H4).
    { repeat split; intros ->; apply Hn;
        repeat (apply elem_of_cons; first [left; reflexivity | right]). }
    destruct zone_dict; by simplify_map_eq. }
  split; [unfold obj; destruct zone_dict; by simplify_map_eq |].
  split; [unfold obj; destruct zone_dict; by simplify_map_eq |].
  split; [exact Hanc |].
  exists m. split; [| done].
  rewrite <- Hanc; [done |]. fresh_in_log.
Qed.

Lemma init_keeps_ancestor_attributes_witness :
  let self := returned (new_demo quiet_model (Some one_zone) world0) in
  self !! "heading" = Some (VStr "# ZONE for MODFLOW, generated by Flopy.")
  /\ self !! "url" = Some (VStr "zon.htm")
  /\ (forall name,
        name ∉ ["heading"; "url"; "nzn"; "zone_dict"] ->
        self !! name = Package_init_demo quiet_model "zon" "ZONE" 1001 !! name)
  /\ exists parent,
       Package_init_demo quiet_model "zon" "ZONE" 1001 !! "parent"
       = Some (VModel parent)
       /\ (new_demo quiet_model (Some one_zone) world0).2
          = mkWorld ∅ [] [] [add_package parent self].
Proof.
  apply (init_keeps_ancestor_attributes Package_init_demo quiet_model
           (Some one_zone) "zon" 1001 world0).
  vm_compute. reflexivity.
Defined.

(* ===================================================================== *)
(** ** More on the zone-budget tests *)
(* ===================================================================== *)

Ltac run_zonbud :=
  unfold ZonbudMain.main,
    ZonbudTest.test_zonbud_write_csv_kstpkper,
    ZonbudTest.test_zonbud_write_csv_totim,
    ZonbudTest.test_zonbud_budget, ZonbudTest.test_zonbud_mass_balance,
    ZonbudTest.test_zonbud_aliases,
    ZonbudTest.query, ZonbudTest.act, ZonbudTest.throw,
    mbind, ZonbudTest.T_bind, mret, ZonbudTest.T_ret;
  simpl;
  repeat (rewrite check_spec; case_decide; simpl).

(** X14.  When the budget object can be built, [test_zonbud_budget] passes
    exactly when its two [get_records] queries return at least one row
    each, [test_zonbud_mass_balance] exactly when its four queries do, and
    [test_zonbud_aliases] exactly when its first [get_records] does,
    whatever its second query returns; the two tests that write csv files
    always pass. *)
Theorem zonbud_tests_pass_iff
    (recarray : Type) (shape0 : recarray -> Z)
    (zbud : ZonbudTest.Query -> recarray) :
  let rows q := shape0 (zbud q) in
  ((ZonbudTest.test_zonbud_budget recarray shape0 zbud []).1 = Ok tt
   <-> rows ZonbudMain.q_all <> 0 /\ rows ZonbudMain.q_budget <> 0)
  /\ ((ZonbudTest.test_zonbud_mass_balance recarray shape0 zbud []).1 = Ok tt
      <-> Forall (fun q => rows q <> 0) ZonbudMain.qs_mass_balance)
  /\ ((ZonbudTest.test_zonbud_aliases recarray shape0 zbud []).1 = Ok tt
      <-> rows ZonbudMain.q_all <> 0)
  /\ (ZonbudTest.test_zonbud_write_csv_kstpkper []).1 = Ok tt
  /\ (ZonbudTest.test_zonbud_write_csv_totim []).1 = Ok tt.
Proof.
  intros rows. subst rows.
  unfold ZonbudMain.q_all, ZonbudMain.q_budget, ZonbudMain.qs_mass_balance.
  rewrite !Forall_cons, Forall_nil.
  split; [| split; [| split; [| split]]]; run_zonbud;
    try reflexivity; intuition congruence.
Qed.

(** X15.  A test stops at the first checked query that returns no row: the
    queries that [test_zonbud_mass_balance] and [test_zonbud_budget] make
    are those of their source, in order, up to the first without rows, and
    [test_zonbud_aliases] makes its second query only if the first returned
    rows.  No query is made twice. *)
Theorem zonbud_tests_stop_at_first_empty
    (recarray : Type) (shape0 : recarray -> Z)
    (zbud : ZonbudTest.Query -> recarray) :
  let rows q := shape0 (zbud q) in
  ZonbudMain.queries_made
    (ZonbudTest.test_zonbud_mass_balance recarray shape0 zbud []).2
  = ZonbudMain.until_empty rows ZonbudMain.qs_mass_balance
  /\ ZonbudMain.queries_made
       (ZonbudTest.test_zonbud_budget recarray shape0 zbud []).2
     = ZonbudMain.until_empty rows [ZonbudMain.q_all; ZonbudMain.q_budget]
  /\ ZonbudMain.queries_made
       (ZonbudTest.test_zonbud_aliases recarray shape0 zbud []).2
     = if rows ZonbudMain.q_all =? 0 then [ZonbudMain.q_all]
       else [ZonbudMain.q_all; ZonbudMain.q_alias].
Proof.
  intros rows. subst rows.
  unfold ZonbudMain.q_all, ZonbudMain.q_budget, ZonbudMain.q_alias,
    ZonbudMain.qs_mass_balance.
  repeat split; run_zonbud;
    repeat match goal with
           | H : shape0 _ = 0 |- _ => apply Z.eqb_eq in H; rewrite ?H
           | H : shape0 _ <> 0 |- _ => apply Z.eqb_neq in H; rewrite ?H
           end; reflexivity.
Qed.

(** X16.  Run as a script, the file runs the two csv tests, then
    [test_zonbud_aliases], [test_zonbud_budget] and
    [test_zonbud_mass_balance], and stops at the first that raises: it ends
    without exception exactly when the seven checked queries return rows,
    and the tests after a failing one are not started. *)
Theorem main_stops_at_first_failing_test
    (recarray : Type) (shape0 : recarray -> Z)
    (za zb zm : ZonbudTest.Query -> recarray) :
  let run := ZonbudMain.main recarray shape0 za zb zm [] in
  let empty z q := shape0 (z q) =? 0 in
  (run.1 = Ok tt
   <-> shape0 (za ZonbudMain.q_all) <> 0
       /\ shape0 (zb ZonbudMain.q_all) <> 0
       /\ shape0 (zb ZonbudMain.q_budget) <> 0
       /\ Forall (fun q => shape0 (zm q) <> 0) ZonbudMain.qs_mass_balance)
  /\ (run.1 = Ok tt \/ run.1 = Raise (Exception "No records returned."))
  /\ ZonbudMain.tests_started run.2
     = (if empty za ZonbudMain.q_all then 3
        else if empty zb ZonbudMain.q_all || empty zb ZonbudMain.q_budget
             then 4 else 5)%nat.
Proof.
  intros run empty. subst run empty.
  unfold ZonbudMain.q_all, ZonbudMain.q_budget, ZonbudMain.qs_mass_balance.
  rewrite !Forall_cons, Forall_nil.
  run_zonbud;
    repeat match goal with
           | |- context [?a =? 0] => destruct (Z.eqb_spec a 0)
           end;
    try congruence; cbn [orb];
    (split; [| split; [auto | reflexivity]]); intuition congruence.
Qed.

(* ===================================================================== *)
(** ** More on the river package definition *)
(* ===================================================================== *)

Example gwfriv_components_ex :
  GwfrivClass.components
    ["block options"; "name ts_filerecord";
     "type record ts6 filein ts6_filename"; "shape"; "reader urword";
     "tagged true"; "optional true"]
  = ["ts6"; "filein"; "ts6_filename"]
  /\ map GwfrivClass.name_of GwfrivClass.top_level
     = ["auxiliary"; "auxmultname"; "boundnames"; "print_input";
        "print_flows"; "save_flows"; "ts_filerecord"; "obs_filerecord";
        "mover"; "maxbound"; "periodrecarray"].
Proof. split; vm_compute; reflexivity. Qed.

(** X17.  The definition table is closed: its entries declare pairwise
    distinct names; every component of a record or record array is declared
    by an entry of the same block that is flagged [in_record]; and every
    entry flagged [in_record], the block variable apart, is a component of
    a record or record array of its block. *)
Theorem dfn_records_are_declared :
  NoDup (map GwfrivClass.name_of ModflowGwfriv.dfn)
  /\ Forall (fun e =>
       Forall (fun c =>
         Exists (fun e' =>
           GwfrivClass.name_of e' = c
           /\ GwfrivClass.block_of e' = GwfrivClass.block_of e
           /\ GwfrivClass.has_flag "in_record" e' = true)
           ModflowGwfriv.dfn)
         (GwfrivClass.components e))
       ModflowGwfriv.dfn
  /\ Forall (fun e' =>
       GwfrivClass.has_flag "in_record" e' = true ->
       GwfrivClass.has_flag "block_variable" e' = false ->
       Exists (fun e =>
         GwfrivClass.name_of e' ∈ GwfrivClass.components e
         /\ GwfrivClass.block_of e = GwfrivClass.block_of e')
         ModflowGwfriv.dfn)
       ModflowGwfriv.dfn.
Proof.
  split; [| split].
  - apply (bool_decide_unpack _). vm_compute. exact I.
  - apply (bool_decide_unpack _). vm_compute. exact I.
  - apply (bool_decide_unpack _). vm_compute. exact I.
Qed.

(** X18.  The constructor builds one data object for every entry of the
    table that is not part of a record, and for no other: the attributes it
    sets are the names of those entries, in the order of the table, each
    built under its own name. *)
Theorem init_builds_the_variables_of_the_table
    (PyVal MFData : Type) (build_mfdata : string -> PyVal -> MFData)
    (auxiliary auxmultname boundnames print_input print_flows save_flows
     ts_filerecord obs_filerecord mover maxbound periodrecarray : PyVal) :
  map fst
    (GwfrivClass.__init__ PyVal MFData build_mfdata auxiliary auxmultname
       boundnames print_input print_flows save_flows ts_filerecord
       obs_filerecord mover maxbound periodrecarray)
  = map GwfrivClass.name_of GwfrivClass.top_level
  /\ Forall (fun a => a.1.1 = a.1.2)
       (GwfrivClass.assignments PyVal auxiliary auxmultname boundnames
          print_input print_flows save_flows ts_filerecord obs_filerecord
          mover maxbound periodrecarray).
Proof.
  split; [vm_compute; reflexivity |].
  unfold GwfrivClass.assignments. repeat constructor.
Qed.

(** X19.  Every template generator of the class is built on the path of a
    variable of the table: model [gwf6], the package type, the block that
    the table gives to the variable, and its name.  The variables with a
    template are those of the table that are lists: records, record arrays
    and variables with a shape. *)
Theorem templates_follow_the_table :
  Forall (fun t =>
    t.1.1.1 = "gwf6" /\ t.1.1.2 = ModflowGwfriv.package_type
    /\ Exists (fun e => GwfrivClass.name_of e = t.2
                        /\ GwfrivClass.block_of e = t.1.2)
              GwfrivClass.top_level)
    GwfrivClass.templates
  /\ map snd GwfrivClass.templates
     = map GwfrivClass.name_of
           (List.filter GwfrivClass.is_list GwfrivClass.top_level).
Proof.
  split; [| vm_compute; reflexivity].
  apply (bool_decide_unpack _). vm_compute. exact I.
Qed.

(* ===================================================================== *)
(** ** An invariant of every package that [load] returns *)
(* ===================================================================== *)

Lemma read_zones_NoDup
    {py : PyText.Builtins}
    (Util2d_load : text -> Model -> option Z * option Z -> dtype ->
                   text -> option ExtUnitDict -> (Util2d + exn) * text)
    (n : nat) h model shape eud :
  forall acc w d w',
    ModflowZon.read_zones Util2d_load n h model shape eud acc w = (Ok d, w') ->
    NoDup (od_keys acc) ->
    NoDup (od_keys d) /\ (length d <= length acc + n)%nat.
Proof.
  induction n as [| n IH]; intros acc w d w'; simpl.
  { intros [= <- <-] H. split; [done | lia]. }
  rewrite bind_run. destruct (readline h w) as [[line | e |] w1]; try done.
  rewrite bind_run. destruct (list_first _ w1) as [[t0 | e |] w2]; try done.
  rewrite bind_run. destruct (when _ _ w2) as [[[] | e |] w3]; try done.
  rewrite bind_run.
  destruct (ModflowZon.Util2d_load_on _ _ _ _ _ _ _ w3) as [[t | e |] w4];
    try done.
  rewrite bind_run.
  assert (Hcall : exists w5,
    (match locat t with
     | Some u => call (add_pop_key_list model u)
     | None => ret tt
     end) w4 = (Ok tt, w5)) by (destruct (locat t); eexists; reflexivity).
  destruct Hcall as (w5 & ->).
  intros H Hacc. apply IH in H as [Hnd Hlen]; [| by apply od_set_NoDup].
  split; [done |].
  assert (length (od_set (ModflowZon.zonnam_of t0) t acc) <= S (length acc))%nat.
  { clear. induction acc as [| [k v] acc IHa]; simpl; [lia |].
    destruct (text_eqb k _); simpl; lia. }
  lia.
Qed.

(** X20.  Every package that [load] returns, whatever the file, has
    pairwise distinct keys in its [zone_dict] and an [nzn] equal to the
    number of these keys; and the last call that [load] made is the
    [add_package] of that package. *)
Theorem load_package_invariant
    {py : PyText.Builtins}
    (Package_init : Model -> string -> string -> Z -> Obj)
    (Util2d_load : text -> Model -> option Z * option Z -> dtype ->
                   text -> option ExtUnitDict -> (Util2d + exn) * text)
    f model nrow ncol eud w zon w' :
  ModflowZon.load Package_init Util2d_load f model nrow ncol eud w
    = (Ok zon, w') ->
  exists d,
    zon !! "zone_dict" = Some (VDict d)
    /\ zon !! "nzn" = Some (VInt (Z.of_nat (length d)))
    /\ NoDup (od_keys d)
    /\ exists m, last (calls w') = Some (add_package m zon).
Proof.
  intros H.
  assert (Hlast : exists m, last (calls w') = Some (add_package m zon)).
  { destruct (load_calls _ _ _ _ _ _ _ _ _ _ H)
      as (dims & zones & pkg & Hc & _ & _ & [(e & He & _) | (s & m & Hs & ->)]);
      [done |].
    injection Hs as <-. exists m. rewrite Hc, !app_assoc. apply last_snoc. }
  revert H. unfold ModflowZon.load.
  rewrite bind_run. destruct (when _ _ w) as [[[] | e |] w1]; try done.
  rewrite bind_run.
  destruct ((match f with FileObj h => ret h | Filename p => open p end) w1)
    as [[h | e |] w2]; try done.
  rewrite bind_run. destruct (ModflowZon.header h w2) as [[line | e |] w3];
    try done.
  rewrite bind_run. destruct (list_first _ w3) as [[t0 | e |] w4]; try done.
  rewrite bind_run. destruct (py_int t0 w4) as [[nzn | e |] w5]; try done.
  destruct (shape_run model nrow ncol w5) as (w6 & E6 & _).
  rewrite (bind_ok _ _ _ _ _ E6). rewrite bind_run.
  destruct (ModflowZon.read_zones _ _ _ _ _ _ _ w6) as [[d | e |] w7] eqn:E7;
    try done.
  unfold ModflowZon.new. intros H. apply init_ok_attrs in H as [Hzd Hnzn].
  exists d. split; [done |]. split; [done |]. split; [| done].
  eapply read_zones_NoDup; [exact E7 | constructor].
Qed.

Lemma load_package_invariant_witness :
  let run := load_demo (Filename "dup.zon") quiet_model None None None
                       dup_world in
  exists d,
    returned run !! "zone_dict" = Some (VDict d)
    /\ returned run !! "nzn" = Some (VInt (Z.of_nat (length d)))
    /\ NoDup (od_keys d)
    /\ exists m, last (calls run.2) = Some (add_package m (returned run)).
Proof.
  apply (load_package_invariant (py := py_demo) Package_init_demo Util2d_load_demo
           (Filename "dup.zon") quiet_model None None None dup_world).
  vm_compute. reflexivity.
Defined.
